(** * Unity MCP bridge: log-window extraction, compile orchestration and
    dynamic tool dispatch

    A shallow embedding of [unity_compile_core.py], [server.py] and
    [compile_unity.py].  Python values that cross the executor boundary are JSON-shaped and are
    modelled by [val]; a Python [dict] is a [gmap string val]; a [str] is a
    [string] (code points below 256); an [int] is a [Z].  Code that can raise
    lives in the exception type [exc]; code that also talks to the outside
    (environment, file system, the Unity connection) lives in the state and
    exception monad [M] over [World].  What the files use without defining
    it - the connection factory, [time.sleep], [FastMCP.add_tool], [print],
    [json.dumps] - is a section variable, with its own state where it has
    one, and may raise.  Calls to [logger] have no influence on any
    returned value and are left out. *)

From Stdlib Require Import ZArith Ascii String DecimalString.
From stdpp Require Import base option list strings gmap.

Set Warnings "-register-all".
Local Open Scope string_scope.
Local Open Scope Z_scope.

(** ** Python values *)

Inductive val : Type :=
  | VNone
  | VBool (b : bool)
  | VInt (z : Z)
  | VStr (s : string)
  | VList (l : list val)
  | VDict (d : gmap string val).

(** [bool(v)] *)
Definition truthy (v : val) : bool :=
  match v with
  | VNone => false
  | VBool b => b
  | VInt z => negb (Z.eqb z 0)
  | VStr s => negb (String.eqb s "")
  | VList l => match l with [] => false | _ => true end
  | VDict d => negb (Nat.eqb (size d) 0)
  end.

(** [type(v).__name__] *)
Definition type_name (v : val) : string :=
  match v with
  | VNone => "NoneType"
  | VBool _ => "bool"
  | VInt _ => "int"
  | VStr _ => "str"
  | VList _ => "list"
  | VDict _ => "dict"
  end.

(** A dict display [{k1: v1, ...}]; later keys win as in Python. *)
Definition dict_of (kvs : list (string * val)) : gmap string val :=
  foldl (fun d kv => <[kv.1 := kv.2]> d) ∅ kvs.

(** ** Exceptions *)

(** An instance of [Exception]: its class name and [str(e)]. *)
Record exn : Type := Exn { exn_class : string; exn_str : string }.

Inductive exc (A : Type) : Type :=
  | Ok (a : A)
  | Raise (e : exn).
Arguments Ok {A} a.
Arguments Raise {A} e.

#[export] Instance exc_ret : MRet exc := fun A a => Ok a.

#[export] Instance exc_bind : MBind exc := fun A B f x =>
  match x with
  | Ok a => f a
  | Raise e => Raise e
  end.

Definition AttributeError (v : val) (attr : string) : exn :=
  Exn "AttributeError"
      ("'" ++ type_name v ++ "' object has no attribute '" ++ attr ++ "'").

Definition IndexError : exn := Exn "IndexError" "list index out of range".

Definition KeyError (k : string) : exn := Exn "KeyError" ("'" ++ k ++ "'").

Definition NotIterable (v : val) : exn :=
  Exn "TypeError" ("'" ++ type_name v ++ "' object is not iterable").

Definition Unhashable (v : val) : exn :=
  Exn "TypeError" ("unhashable type: '" ++ type_name v ++ "'").

Definition UnboundLocal (x : string) : exn :=
  Exn "UnboundLocalError"
      ("cannot access local variable '" ++ x
         ++ "' where it is not associated with a value").

(** [v.get(k, default)]: only a dict has the method. *)
Definition py_get (v : val) (k : string) (dflt : val) : exc val :=
  match v with
  | VDict d => Ok (default dflt (d !! k))
  | _ => Raise (AttributeError v "get")
  end.

(** ** Strings *)

(** [str.isspace] on one character, for the code points below 256. *)
Definition is_space (c : ascii) : bool :=
  let n := N_of_ascii c in
  ((9 <=? n) && (n <=? 13) || (28 <=? n) && (n <=? 32)
   || (n =? 133) || (n =? 160))%N.

Fixpoint lstrip (s : string) : string :=
  match s with
  | EmptyString => EmptyString
  | String c r => if is_space c then lstrip r else s
  end.

Fixpoint rstrip (s : string) : string :=
  match s with
  | EmptyString => EmptyString
  | String c r =>
      match rstrip r with
      | EmptyString => if is_space c then EmptyString else String c EmptyString
      | r' => String c r'
      end
  end.

(** [s.strip()] *)
Definition strip (s : string) : string := rstrip (lstrip s).

(** [needle in hay] on two [str] *)
Fixpoint str_in (needle hay : string) : bool :=
  String.prefix needle hay
  || match hay with
     | EmptyString => false
     | String _ hay' => str_in needle hay'
     end.

(** [s.replace(old, new)]: occurrences are replaced from the left and do not
    overlap; [skip] counts the characters of a match still to be dropped. *)
Fixpoint replace_go (old new : string) (skip : nat) (s : string) : string :=
  match s with
  | EmptyString => EmptyString
  | String c r =>
      match skip with
      | S k => replace_go old new k r
      | O =>
          if String.prefix old s
          then new ++ replace_go old new (Nat.pred (String.length old)) r
          else String c (replace_go old new O r)
      end
  end.

Fixpoint intersperse_str (new s : string) : string :=
  match s with
  | EmptyString => EmptyString
  | String c r => String c (new ++ intersperse_str new r)
  end.

Definition py_replace (old new s : string) : string :=
  if String.eqb old "" then new ++ intersperse_str new s
  else replace_go old new O s.

(** [str(z)] for an [int] *)
Definition str_of_int (z : Z) : string := NilZero.string_of_int (Z.to_int z).

(** [lines[i]] with Python's negative indices. *)
Definition py_getitem (lines : list string) (i : Z) : exc string :=
  let n := Z.of_nat (length lines) in
  let j := if i <? 0 then i + n else i in
  if (0 <=? j) && (j <? n)
  then match lines !! Z.to_nat j with
       | Some l => Ok l
       | None => Raise IndexError
       end
  else Raise IndexError.

(** ** Log window extraction ([unity_compile_core.py], [server.py]) *)

Definition START_MARKER : string := "EditorCompilation:InvokeCompilationStarted".
Definition SECTION_MARKER : string := "* Tundra".
Definition OUTPUT_MARKER : string := "# Output".

(** The result dict [{"success": .., "message": .., "compilation_logs": ..}]. *)
Definition compile_result (success : bool) (message : string)
    (compilation_logs : list string) : val :=
  VDict (dict_of [("success", VBool success);
                  ("message", VStr message);
                  ("compilation_logs", VList (VStr <$> compilation_logs))]).

(** The loop
<<
    idx = -1
    for i in range(hi, lo, -1):
        if marker in lines[i]:
            idx = i
            break
>>
    [k] counts the iterations still to run; the current index is [lo + k]. *)
Fixpoint scan_down (marker : string) (lines : list string) (lo : Z) (k : nat)
    : exc Z :=
  match k with
  | O => Ok (-1)
  | S k' =>
      let i := lo + Z.of_nat k in
      line ← py_getitem lines i;
      if str_in marker line then Ok i else scan_down marker lines lo k'
  end.

Definition find_last (marker : string) (lines : list string) (hi lo : Z)
    : exc Z :=
  scan_down marker lines lo (Z.to_nat (hi - lo)).

(** The loop
<<
    for i in range(i0, i0 + k):
        line = lines[i].strip()
        if line:
            compilation_logs.append(line)
>>
    started with [compilation_logs = acc]. *)
Fixpoint collect (lines : list string) (i : Z) (k : nat) (acc : list string)
    : exc (list string) :=
  match k with
  | O => Ok acc
  | S k' =>
      raw ← py_getitem lines i;
      let line := strip raw in
      collect lines (i + 1) k'
              (if String.eqb line "" then acc else acc ++ [line])
  end.

Definition extract_logs (lines : list string) (output_start_index tundra_index : Z)
    : exc (list string) :=
  collect lines (output_start_index + 1)
          (Z.to_nat (tundra_index - (output_start_index + 1))) [].

(** Lines 90-143 of [UnityCompileCore.parse_compilation_logs]: everything
    after [f.readlines()], inside the [try]. *)
Definition parse_lines (lines : list string) : exc val :=
  let n := Z.of_nat (length lines) in
  compilation_start_index ← find_last START_MARKER lines (n - 1) (-1);
  if compilation_start_index =? -1 then
    Ok (compile_result false
          "EditorCompilation:InvokeCompilationStarted marker not found" [])
  else
    tundra_index ← find_last SECTION_MARKER lines (n - 1) compilation_start_index;
    if tundra_index =? -1 then
      Ok (compile_result false
            "* Tundra not found after EditorCompilation:InvokeCompilationStarted" [])
    else
      output_start_index ←
        find_last OUTPUT_MARKER lines (tundra_index - 1) compilation_start_index;
      if output_start_index =? -1 then
        Ok (compile_result true
              ("No errors found in this compilation. (# Output not found before * Tundra (from "
                 ++ str_of_int compilation_start_index ++ " to "
                 ++ str_of_int tundra_index ++ "))") [])
      else
        compilation_logs ← extract_logs lines output_start_index tundra_index;
        Ok (compile_result true
              ("Successfully read "
                 ++ str_of_int (Z.of_nat (length compilation_logs))
                 ++ " compilation records (from "
                 ++ str_of_int output_start_index ++ " to "
                 ++ str_of_int tundra_index ++ ")")
              compilation_logs).

(** Lines 243-296 of the [compile_project] tool of [server.py]: the same
    scan written out a second time, inside that function's [try]. *)
Definition server_parse_lines (lines : list string) : exc val :=
  let n := Z.of_nat (length lines) in
  compilation_start_index ← find_last START_MARKER lines (n - 1) (-1);
  if compilation_start_index =? -1 then
    Ok (compile_result false
          "EditorCompilation:InvokeCompilationStarted marker not found" [])
  else
    tundra_index ← find_last SECTION_MARKER lines (n - 1) compilation_start_index;
    if tundra_index =? -1 then
      Ok (compile_result false
            "* Tundra not found after EditorCompilation:InvokeCompilationStarted" [])
    else
      output_start_index ←
        find_last OUTPUT_MARKER lines (tundra_index - 1) compilation_start_index;
      if output_start_index =? -1 then
        Ok (compile_result false
              ("# Output not found before * Tundra from "
                 ++ str_of_int compilation_start_index ++ " to "
                 ++ str_of_int tundra_index) [])
      else
        compilation_logs ← extract_logs lines output_start_index tundra_index;
        Ok (compile_result true
              ("Successfully read "
                 ++ str_of_int (Z.of_nat (length compilation_logs))
                 ++ " lines of compilation records from "
                 ++ str_of_int output_start_index ++ " to "
                 ++ str_of_int tundra_index)
              compilation_logs).

(** ** The outside world *)

(** [Path(base) / p1 / p2 / ...] *)
Record Path : Type := MkPath { path_base : string; path_parts : list string }.

Definition path_div (p : Path) (part : string) : Path :=
  MkPath (path_base p) (path_parts p ++ [part]).

(** What the process can observe: [os.environ], [Path.exists] and the
    outcome of [open(p, 'r', encoding='utf-8', errors='ignore')] followed
    by [readlines()]. *)
Record World : Type := MkWorld {
  environ : string -> option string;
  path_exists : Path -> exc bool;
  read_lines : Path -> exc (list string)
}.

Definition M (A : Type) : Type := World -> exc A * World.

#[export] Instance M_ret : MRet M := fun A a w => (Ok a, w).

#[export] Instance M_bind : MBind M := fun A B f x w =>
  match x w with
  | (Ok a, w') => f a w'
  | (Raise e, w') => (Raise e, w')
  end.

Definition lift {A} (x : exc A) : M A := fun w => (x, w).

Definition ask {A} (f : World -> A) : M A := fun w => (Ok (f w), w).

(** [p.exists()] *)
Definition exists_ (p : Path) : M bool := fun w => (path_exists w p, w).

(** [with open(p, 'r', encoding='utf-8', errors='ignore') as f: f.readlines()] *)
Definition open_readlines (p : Path) : M (list string) :=
  fun w => (read_lines w p, w).

(** [os.environ.get(k)] *)
Definition environ_get (k : string) : M (option string) := ask (fun w => environ w k).

(** [try: body  except Exception as e: handler(e)] *)
Definition try_except {A} (body : M A) (handler : exn -> M A) : M A :=
  fun w =>
    match body w with
    | (Ok a, w') => (Ok a, w')
    | (Raise e, w') => handler e w'
    end.

(** A [UnityConnection] object, seen through its [send_command] method. *)
Record Bridge : Type := MkBridge {
  send_command : string -> gmap string val -> M val
}.

(** [os.environ.get(k)] is falsy when the variable is unset or empty. *)
Definition env_truthy (v : option string) : bool :=
  match v with
  | Some s => negb (String.eqb s "")
  | None => false
  end.

Section Server.

(** [unity_connection.get_unity_connection] and [time.sleep] are not part of
    the modelled files; the development holds for every behaviour of
    them. *)
Variable get_unity_connection : M (option Bridge).
Variable time_sleep : Z -> World -> World.

Definition sleep (seconds : Z) : M () :=
  fun w => (Ok (), time_sleep seconds w).

(** *** [UnityCompileCore] *)

Definition trigger_compilation_via_unity (unity_connection : option Bridge)
    : M bool :=
  try_except
    (unity_connection ←
       match unity_connection with
       | None => get_unity_connection
       | Some b => mret (Some b)
       end;
     match unity_connection with
     | Some b =>
         refresh_response ← send_command b "project_files_refresher" ∅;
         success ← lift (py_get refresh_response "success" (VBool true));
         let success :=
           match refresh_response with
           | VDict d => if bool_decide ("error" ∉ dom d) then VBool true else success
           | _ => success
           end in
         if truthy success then
           _ ← sleep 3;
           mret true
         else mret false
     | None => mret false
     end)
    (fun e => mret false).

Definition get_editor_log_path : M (option Path) :=
  localappdata ← environ_get "LOCALAPPDATA";
  localappdata ←
    (if env_truthy localappdata then mret (default "" localappdata)
     else
       user ← environ_get "USER";
       mret ("/mnt/c/Users/" ++ default "Unknown" user ++ "/AppData/Local"));
  let editor_log_path :=
    path_div (path_div (path_div (MkPath localappdata []) "Unity") "Editor")
             "Editor.log" in
  found ← exists_ editor_log_path;
  if negb found then mret None else mret (Some editor_log_path).

Definition parse_compilation_logs (editor_log_path : Path) : M val :=
  try_except
    (lines ← open_readlines editor_log_path;
     lift (parse_lines lines))
    (fun e => mret (compile_result false ("Error reading log: " ++ exn_str e) [])).

(** [result[k]] on a value *)
Definition py_subscript (v : val) (k : string) : exc val :=
  match v with
  | VDict d => match d !! k with Some x => Ok x | None => Raise (KeyError k) end
  | VStr _ => Raise (Exn "TypeError" "string indices must be integers, not 'str'")
  | VList _ =>
      Raise (Exn "TypeError" "list indices must be integers or slices, not str")
  | _ => Raise (Exn "TypeError" ("'" ++ type_name v ++ "' object is not subscriptable"))
  end.

Definition compile_project (unity_connection : option Bridge) (skip_trigger : bool)
    : M val :=
  try_except
    (_ ← (if negb skip_trigger
          then triggered ← trigger_compilation_via_unity unity_connection; mret ()
          else mret ());
     editor_log_path ← get_editor_log_path;
     match editor_log_path with
     | None => mret (compile_result false "Unity Editor.log not found" [])
     | Some editor_log_path =>
         result ← parse_compilation_logs editor_log_path;
         _ ← lift (py_subscript result "success");
         mret result
     end)
    (fun e => mret (compile_result false ("Compilation error: " ++ exn_str e) [])).

(** *** [server.py]: dynamic tools *)

(** The [ctx] argument as [getattr(ctx, 'bridge', None)] sees it: [None]
    when the attribute is missing or holds [None]. *)
Record Context : Type := MkContext { ctx_bridge : option Bridge }.

(** The [try] block of the closure [tool_func] built by
    [make_tool_func(cmd_type, ...)], with its parameters bound. *)
Definition tool_body (cmd_type : string) (ctx : Context)
    (kwargs : gmap string val) : M val :=
  bridge ←
    match ctx_bridge ctx with
    | Some b => mret (Some b)
    | None => get_unity_connection
    end;
  match bridge with
  | None =>
      mret (VDict (dict_of [("success", VBool false);
                            ("message", VStr "Unity connection not available")]))
  | Some b =>
      response ← send_command b cmd_type kwargs;
      success ← lift (py_get response "success" VNone);
      if truthy success then
        message ← lift (py_get response "message" (VStr "Operation successful"));
        data ← lift (py_get response "data" VNone);
        mret (VDict (dict_of [("success", VBool true);
                              ("message", message);
                              ("data", data)]))
      else
        error ← lift (py_get response "error" (VStr "Unknown error"));
        mret (VDict (dict_of [("success", VBool false); ("message", error)]))
  end.

Definition tool_error (e : exn) : val :=
  VDict (dict_of [("success", VBool false);
                  ("message", VStr ("Error: " ++ exn_str e))]).

(** What binding the parameters of [def tool_func(ctx, **kwargs)] raises
    when the keyword arguments themselves name [ctx]. *)
Definition MultipleValues : exn :=
  Exn "TypeError"
      "register_dynamic_unity_tools.<locals>.make_tool_func.<locals>.tool_func() got multiple values for argument 'ctx'".

(** The call [tool_func(ctx, **kwargs)].  The parameters are bound first,
    outside the [try]: a keyword argument called "ctx" collides with the
    positional one and the call raises before the body starts. *)
Definition tool_func (cmd_type : string) (ctx : Context)
    (kwargs : gmap string val) : M val :=
  match kwargs !! "ctx" with
  | Some _ => fun w => (Raise MultipleValues, w)
  | None =>
      try_except (tool_body cmd_type ctx kwargs) (fun e => mret (tool_error e))
  end.

(** The [compile_project] tool of [server.py]. *)
Definition server_compile_project (ctx : Context) : M val :=
  try_except
    (bridge ←
       match ctx_bridge ctx with
       | Some b => mret (Some b)
       | None => get_unity_connection
       end;
     _ ← match bridge with
         | Some b =>
             refresh_response ← send_command b "project_files_refresher" ∅;
             success ← lift (py_get refresh_response "success" VNone);
             if negb (truthy success) then mret () else sleep 3
         | None => mret ()
         end;
     localappdata ← environ_get "LOCALAPPDATA";
     localappdata ←
       (if env_truthy localappdata then mret (default "" localappdata)
        else
          user ← environ_get "USER";
          mret ("/mnt/c/Users/" ++ default "Unknown" user ++ "/AppData/Local"));
     let editor_log_path :=
       path_div (path_div (path_div (MkPath localappdata []) "Unity") "Editor")
                "Editor.log" in
     found ← exists_ editor_log_path;
     if negb found then
       mret (compile_result false "Unity Editor.log not found" [])
     else
       lines ← open_readlines editor_log_path;
       lift (server_parse_lines lines))
    (fun e => mret (compile_result false ("Error reading log: " ++ exn_str e) [])).

End Server.

(** *** [server.py]: registration *)

(** [for x in v] *)
Definition py_iter (v : val) : exc (list val) :=
  match v with
  | VList l => Ok l
  | VStr s => Ok ((fun c => VStr (String c EmptyString)) <$> list_ascii_of_string s)
  | VDict d => Ok ((fun kv => VStr kv.1) <$> map_to_list d)
  | _ => Raise (NotIterable v)
  end.

(** [hash(v)] succeeds *)
Definition py_hashable (v : val) : exc () :=
  match v with
  | VList _ | VDict _ => Raise (Unhashable v)
  | _ => Ok ()
  end.

(** One round of the [for param in params_info] loop of [make_tool_func];
    [param_types] and [param_required] are never read again, so only the
    name is kept. *)
Definition scan_param (param : val) : exc val :=
  name_ ← py_get param "Name" VNone;
  param_name ← (if truthy name_ then Ok name_ else py_get param "name" (VStr "unknown"));
  type_ ← py_get param "Type" VNone;
  param_type ← (if truthy type_ then Ok type_ else py_get param "type" (VStr "str"));
  desc_ ← py_get param "Description" VNone;
  param_desc ← (if truthy desc_ then Ok desc_ else py_get param "description" (VStr ""));
  _ ← py_get param "required" (VBool true);
  _ ← match param_type with
      | VStr _ => Ok ()
      | v => Raise (AttributeError v "lower")
      end;
  _ ← py_hashable param_name;
  Ok param_name.

Fixpoint scan_params (params : list val) : exc (list val) :=
  match params with
  | [] => Ok []
  | param :: rest =>
      param_name ← scan_param param;
      names ← scan_params rest;
      Ok (param_name :: names)
  end.

(** What [make_tool_func] returns: the closure over [cmd_type] with its
    [__name__]. *)
Record Tool : Type := MkTool {
  tool_cmd_type : string;
  tool___name__ : string;
  tool_param_names : list val
}.

Definition make_tool_func (cmd_type desc params_info : val) : exc Tool :=
  params ← py_iter params_info;
  param_names ← scan_params params;
  match cmd_type with
  | VStr c => Ok (MkTool c (py_replace "-" "_" c) param_names)
  | v => Raise (AttributeError v "replace")
  end.

(** The arguments of one call
    [mcp.add_tool(tool_func, name=tool_name, description=description)]. *)
Record Registration : Type := MkRegistration {
  reg_tool : Tool;
  reg_name : string;
  reg_description : val
}.

(** Line 55: the assignment to [command_type]. *)
Definition read_command_type (tool_meta : val) : exc val :=
  a ← py_get tool_meta "CommandType" VNone;
  if truthy a then Ok a else py_get tool_meta "commandType" VNone.

(** Lines 56-127: the [try] block up to the call of [add_tool], whose
    arguments it yields; [None] is the [continue]. *)
Definition register_one (tool_meta command_type : val) : exc (option Registration) :=
  d ← py_get tool_meta "Description" VNone;
  description ← (if truthy d then Ok d else py_get tool_meta "description" (VStr ""));
  p ← py_get tool_meta "Parameters" VNone;
  parameters ← (if truthy p then Ok p else py_get tool_meta "parameters" (VList []));
  if negb (truthy command_type) then Ok None
  else
    tool_func ← make_tool_func command_type description parameters;
    match command_type with
    | VStr c => Ok (Some (MkRegistration tool_func (py_replace "-" "_" c) description))
    | v => Raise (AttributeError v "replace")
    end.

(** [len(v)] *)
Definition py_len (v : val) : exc Z :=
  match v with
  | VStr s => Ok (Z.of_nat (String.length s))
  | VList l => Ok (Z.of_nat (length l))
  | VDict d => Ok (Z.of_nat (size d))
  | _ => Raise (Exn "TypeError" ("object of type '" ++ type_name v ++ "' has no len()"))
  end.

Section Registration.

(** [FastMCP] is not part of the modelled files.  [Registry] stands for the
    state of an [mcp] instance (its tool manager) and [add_tool] for its
    method: from a state and the arguments of a call it returns normally or
    raises, and leaves a state behind either way.  Which tools the server
    holds afterwards is read off that state; the development holds for
    every [add_tool]. *)
Context {Registry : Type}.
Variable add_tool : Registry -> Registration -> exc () * Registry.

(** An [mcp] instance, and next to it the [add_tool] calls made on it so
    far, in order. *)
Record Mcp : Type := MkMcp {
  mcp_registry : Registry;
  add_tool_calls : list Registration
}.

(** The [for tool_meta in tools_metadata] loop.  [command_type] is the local
    variable of that name ([None] while unbound): the [except] clause
    formats it into its log message, which fails when the variable was
    never assigned.  The call of [add_tool] sits inside the [try]: when it
    raises, the [except] clause logs and the loop goes on, as it does when
    the call returns (lines 133-139 only read the registry). *)
Fixpoint register_loop (tools_metadata : list val) (command_type : option val)
    (mcp : Mcp) : exc () * Mcp :=
  match tools_metadata with
  | [] => (Ok (), mcp)
  | tool_meta :: rest =>
      match read_command_type tool_meta with
      | Raise e =>
          match command_type with
          | None => (Raise (UnboundLocal "command_type"), mcp)
          | Some _ => register_loop rest command_type mcp
          end
      | Ok ct =>
          match register_one tool_meta ct with
          | Ok (Some r) =>
              register_loop rest (Some ct)
                (MkMcp (add_tool (mcp_registry mcp) r).2 (add_tool_calls mcp ++ [r]))
          | Ok None | Raise _ => register_loop rest (Some ct) mcp
          end
      end
  end.

Definition register_dynamic_unity_tools (mcp : Mcp) (tools_metadata : list val)
    : exc () * Mcp :=
  register_loop tools_metadata None mcp.

(** *** [server.py]: discovery *)

(** The [mcp] instance under construction and the two module globals of
    [server.py]. *)
Record ServerState : Type := MkServerState {
  server_mcp : Mcp;
  _unity_connection : option Bridge;
  _discovered_tools : val
}.

(** The call [register_dynamic_unity_tools(mcp, tools_metadata)] on whatever
    value the executor sent: line 46 takes its [len], line 50 stores it in
    [_discovered_tools], line 53 iterates over it. *)
Definition register_discovered (st : ServerState) (tools_metadata : val)
    : exc () * ServerState :=
  match py_len tools_metadata with
  | Raise e => (Raise e, st)
  | Ok _ =>
      let st := MkServerState (server_mcp st) (_unity_connection st) tools_metadata in
      match py_iter tools_metadata with
      | Raise e => (Raise e, st)
      | Ok metas =>
          let (r, mcp) := register_dynamic_unity_tools (server_mcp st) metas in
          (r, MkServerState mcp (_unity_connection st) tools_metadata)
      end
  end.

(** Lines 165-172 of [create_mcp_server]: what is done with the answer to
    [list_tools]. *)
Definition discover_tools (st : ServerState) (response : val)
    : exc () * ServerState :=
  match py_get response "success" VNone with
  | Raise e => (Raise e, st)
  | Ok success =>
      if truthy success then
        match py_get response "data" VNone with
        | Raise e => (Raise e, st)
        | Ok tools_data =>
            if truthy tools_data then
              match tools_data with
              | VDict td =>
                  match td !! "tools" with
                  | Some tools =>
                      let st :=
                        MkServerState (server_mcp st) (_unity_connection st) tools in
                      match py_len tools with
                      | Raise e => (Raise e, st)
                      | Ok _ => register_discovered st tools
                      end
                  | None => (Ok (), st)
                  end
              | _ => (Ok (), st)
              end
            else (Ok (), st)
        end
      else (Ok (), st)
  end.

(** The state of a freshly constructed [FastMCP(...)]. *)
Variable new_mcp : Registry.
Variable get_unity_connection : M (option Bridge).

(** [create_mcp_server]: a fresh [mcp], then early discovery inside a
    [try] whose handler only logs.  The state returned carries the [mcp]
    that the function returns. *)
Definition create_mcp_server (st : ServerState) (w : World) : ServerState * World :=
  let st :=
    MkServerState (MkMcp new_mcp []) (_unity_connection st) (_discovered_tools st) in
  match get_unity_connection w with
  | (Ok (Some temp_connection), w1) =>
      match send_command temp_connection "list_tools" ∅ w1 with
      | (Ok response, w2) =>
          match discover_tools st response with
          | (Ok _, st') =>
              (MkServerState (server_mcp st') (Some temp_connection)
                             (_discovered_tools st'), w2)
          | (Raise _, st') => (st', w2)
          end
      | (Raise _, w2) => (st, w2)
      end
  | (Ok None, w1) => (st, w1)
  | (Raise _, w1) => (st, w1)
  end.

End Registration.

(** The module state before [create_mcp_server] runs: both globals as the
    module body sets them; the [mcp] slot is filled by
    [create_mcp_server]. *)
Definition initial_state {Registry : Type} (new_mcp : Registry)
    : @ServerState Registry :=
  MkServerState (MkMcp new_mcp []) None (VList []).

(** *** [server.py]: the prompt, and [compile_unity.py] *)

Section Text.

(** [str(v)] of a list or a dict is not modelled; everything holds for any
    rendering of them. *)
Variable py_repr : val -> string.

(** [str(v)], which is what an f-string field without a format does. *)
Definition py_str (v : val) : string :=
  match v with
  | VNone => "None"
  | VBool true => "True"
  | VBool false => "False"
  | VInt z => str_of_int z
  | VStr s => s
  | _ => py_repr v
  end.

(** [sep.join(l)] *)
Fixpoint str_join (sep : string) (l : list string) : string :=
  match l with
  | [] => ""
  | [x] => x
  | x :: rest => x ++ sep ++ str_join sep rest
  end.

(** One round of the loop of [asset_creation_strategy]. *)
Definition tool_line (tool : val) : exc string :=
  command_type ← py_get tool "commandType" (VStr "unknown");
  description ← py_get tool "description" (VStr "Unknown tool");
  Ok ("- `" ++ py_str command_type ++ "`: " ++ py_str description).

Fixpoint tool_lines (tools : list val) (tools_list : list string)
    : exc (list string) :=
  match tools with
  | [] => Ok tools_list
  | tool :: rest =>
      line ← tool_line tool;
      tool_lines rest (tools_list ++ [line])
  end.

(** [asset_creation_strategy], reading the global [_discovered_tools].  The
    source writes its line breaks as a backslash followed by [n]. *)
Definition asset_creation_strategy (discovered : val) : exc string :=
  tools ← py_iter discovered;
  tools_list ← tool_lines tools [];
  let tools_section :=
    match tools_list with
    | [] => "No tools discovered. Make sure Unity MCP Bridge is running and connected."
    | _ => str_join "\n" tools_list
    end in
  Ok ("Available Unity MCP Server Tools:\n\n"
        ++ tools_section ++ "\n\n"
        ++ "Tips:\n"
        ++ "- Create prefabs for reusable GameObjects.\n"
        ++ "- Always include a camera and main light in your scenes.\n"
        ++ "- Tools are automatically discovered from your Unity project.\n").

(** [f"{i:3d}"] *)
Definition format_3d (i : Z) : string :=
  let s := str_of_int i in
  match String.length s with
  | O => "   " ++ s
  | S O => "  " ++ s
  | S (S O) => " " ++ s
  | _ => s
  end.

(** [print(s)].  Writing to standard output can fail - a character the
    console encoding lacks, a closed pipe - and then raises.  [Console]
    stands for the state of standard output and [py_print] for one [print]
    call on it: it returns normally or raises, and leaves a state behind
    either way.  The development holds for every [py_print]. *)
Context {Console : Type}.
Variable py_print : Console -> string -> exc () * Console.

(** Standard output, and next to it the strings printed so far, in
    order. *)
Record Stdout : Type := MkStdout {
  console : Console;
  printed : list string
}.

(** One [print(s)]. *)
Definition do_print (out : Stdout) (s : string) : Stdout * exc () :=
  match py_print (console out) s with
  | (Ok _, c) => (MkStdout c (printed out ++ [s]), Ok ())
  | (Raise e, c) => (MkStdout c (printed out), Raise e)
  end.

(** [for i, log in enumerate(logs, i): print(f"  {i:3d}. {log}")] *)
Fixpoint print_logs (i : Z) (logs : list val) (out : Stdout) : Stdout * exc () :=
  match logs with
  | [] => (out, Ok ())
  | log :: rest =>
      match do_print out ("  " ++ format_3d i ++ ". " ++ py_str log) with
      | (out, Ok _) => print_logs (i + 1) rest out
      | (out, Raise e) => (out, Raise e)
      end
  end.

(** The text branch of [main] (lines 65-74): standard output afterwards,
    and whether the branch ended normally. *)
Definition print_text (result : val) (out : Stdout) : Stdout * exc () :=
  match py_subscript result "success" with
  | Raise e => (out, Raise e)
  | Ok success =>
      if truthy success then
        match py_subscript result "message" with
        | Raise e => (out, Raise e)
        | Ok message =>
            match do_print out (py_str message) with
            | (out, Raise e) => (out, Raise e)
            | (out, Ok _) =>
                match py_subscript result "compilation_logs" with
                | Raise e => (out, Raise e)
                | Ok logs =>
                    if truthy logs then
                      match py_len logs with
                      | Raise e => (out, Raise e)
                      | Ok n =>
                          match do_print out
                                  (String "010" ("[LOGS] Compilation logs ("
                                                   ++ str_of_int n ++ " entries):"))
                          with
                          | (out, Raise e) => (out, Raise e)
                          | (out, Ok _) =>
                              match py_iter logs with
                              | Raise e => (out, Raise e)
                              | Ok items => print_logs 1 items out
                              end
                          end
                      end
                    else do_print out "[LOGS] No compilation errors or warnings"
                end
            end
        end
      else
        match py_subscript result "message" with
        | Raise e => (out, Raise e)
        | Ok message => do_print out ("[COMPILATION FAILED] " ++ py_str message)
        end
  end.

Inductive OutputFormat : Type := Json | Text.

(** The parsed command line of [compile_unity.py]. *)
Record Args : Type := MkArgs {
  no_trigger : bool;
  output : OutputFormat;
  verbose : bool
}.

(** [json.dumps(result, indent=2, ensure_ascii=False)] is not modelled. *)
Variable json_dumps : val -> exc string.
Variable get_unity_connection : M (option Bridge).
Variable time_sleep : Z -> World -> World.

(** The handler [except Exception as e] of [main]: it prints the error line
    and exits with 1; when that [print] raises too, the exception leaves
    [main]. *)
Definition execution_failed (out : Stdout) (e : exn) : Stdout * exc Z :=
  match do_print out ("[ERROR] Execution failed: " ++ exn_str e) with
  | (out, Ok _) => (out, Ok 1)
  | (out, Raise e') => (out, Raise e')
  end.

(** [main] after argument parsing, started on standard output [stdout]:
    standard output afterwards, and how [main] ends - [Ok status] for
    [sys.exit(status)], [Raise e] for an exception that leaves [main]
    uncaught.  [SystemExit] is no [Exception], so the [exit] inside the
    [try] is not caught by the handler below it.  A [KeyboardInterrupt]
    (status 130) comes from outside and is not part of the model. *)
Definition main (args : Args) (stdout : Console) (w : World)
    : (Stdout * exc Z) * World :=
  let out := MkStdout stdout [] in
  match compile_project get_unity_connection time_sleep None (no_trigger args) w with
  | (Raise e, w1) => (execution_failed out e, w1)
  | (Ok result, w1) =>
      let (out, r) :=
        match output args with
        | Json =>
            match json_dumps result with
            | Ok s => do_print out s
            | Raise e => (out, Raise e)
            end
        | Text => print_text result out
        end in
      match r with
      | Raise e => (execution_failed out e, w1)
      | Ok _ =>
          match py_subscript result "success" with
          | Raise e => (execution_failed out e, w1)
          | Ok success => ((out, Ok (if truthy success then 0 else 1)), w1)
          end
      end
  end.

End Text.

(** * Specification-side notions *)

(** Line [i] exists and contains marker [m]. *)
Definition marker_at (m : string) (lines : list string) (i : nat) : bool :=
  from_option (str_in m) false (lines !! i).

(** No line with index in [[a, b)] contains marker [m]. *)
Definition marker_free (m : string) (lines : list string) (a b : nat) : bool :=
  forallb (fun l => negb (str_in m l)) (take (b - a) (drop a lines)).

(** Line [i] is the last line with index in [[a, b)] that contains [m]. *)
Definition is_last_in (m : string) (lines : list string) (a b i : nat) : bool :=
  (a <=? i)%nat && (i <? b)%nat && marker_at m lines i
  && marker_free m lines (S i) b.

(** The stripped, non-empty lines with index strictly between [o] and [t],
    in order. *)
Definition trimmed_between (lines : list string) (o t : nat) : list string :=
  filter (fun l => l ≠ "") (strip <$> take (t - S o) (drop (S o) lines)).

(** Every ['-'] replaced by ['_']. *)
Fixpoint dashes_to_underscores (s : string) : string :=
  match s with
  | EmptyString => EmptyString
  | String c r =>
      String (if Ascii.eqb c "-" then "_"%char else c) (dashes_to_underscores r)
  end.

Definition none_in (m : string) (lines : list string) (a b : nat) : Prop :=
  ∀ j, (a ≤ j < b)%nat → marker_at m lines j = false.

Definition last_in (m : string) (lines : list string) (a b i : nat) : Prop :=
  (a ≤ i < b)%nat ∧ marker_at m lines i = true ∧ none_in m lines (S i) b.

(** Where the three markers of the most recent session are. *)
Inductive outcome : Type :=
  | MissingStart
  | MissingSection (s : nat)
  | NoOutput (s t : nat)
  | Found (s t o : nat).

Inductive classify (lines : list string) : outcome -> Prop :=
  | classify_missing_start :
      none_in START_MARKER lines 0 (length lines) ->
      classify lines MissingStart
  | classify_missing_section s :
      last_in START_MARKER lines 0 (length lines) s ->
      none_in SECTION_MARKER lines (S s) (length lines) ->
      classify lines (MissingSection s)
  | classify_no_output s t :
      last_in START_MARKER lines 0 (length lines) s ->
      last_in SECTION_MARKER lines (S s) (length lines) t ->
      none_in OUTPUT_MARKER lines (S s) t ->
      classify lines (NoOutput s t)
  | classify_found s t o :
      last_in START_MARKER lines 0 (length lines) s ->
      last_in SECTION_MARKER lines (S s) (length lines) t ->
      last_in OUTPUT_MARKER lines (S s) t o ->
      classify lines (Found s t o).

(** What [parse_lines] answers for each outcome. *)
Definition core_answer (lines : list string) (oc : outcome) : val :=
  match oc with
  | MissingStart =>
      compile_result false
        "EditorCompilation:InvokeCompilationStarted marker not found" []
  | MissingSection _ =>
      compile_result false
        "* Tundra not found after EditorCompilation:InvokeCompilationStarted" []
  | NoOutput s t =>
      compile_result true
        ("No errors found in this compilation. (# Output not found before * Tundra (from "
           ++ str_of_int (Z.of_nat s) ++ " to " ++ str_of_int (Z.of_nat t) ++ "))") []
  | Found s t o =>
      compile_result true
        ("Successfully read "
           ++ str_of_int (Z.of_nat (length (trimmed_between lines o t)))
           ++ " compilation records (from "
           ++ str_of_int (Z.of_nat o) ++ " to " ++ str_of_int (Z.of_nat t) ++ ")")
        (trimmed_between lines o t)
  end.

(** What the [compile_project] tool of [server.py] answers. *)
Definition server_answer (lines : list string) (oc : outcome) : val :=
  match oc with
  | MissingStart =>
      compile_result false
        "EditorCompilation:InvokeCompilationStarted marker not found" []
  | MissingSection _ =>
      compile_result false
        "* Tundra not found after EditorCompilation:InvokeCompilationStarted" []
  | NoOutput s t =>
      compile_result false
        ("# Output not found before * Tundra from "
           ++ str_of_int (Z.of_nat s) ++ " to " ++ str_of_int (Z.of_nat t)) []
  | Found s t o =>
      compile_result true
        ("Successfully read "
           ++ str_of_int (Z.of_nat (length (trimmed_between lines o t)))
           ++ " lines of compilation records from "
           ++ str_of_int (Z.of_nat o) ++ " to " ++ str_of_int (Z.of_nat t))
        (trimmed_between lines o t)
  end.

(** What a backward scan over the lines [[a, b)] leaves in its index
    variable. *)
Definition scan_post (m : string) (lines : list string) (a b : nat) (r : Z) : Prop :=
  (r = -1 ∧ none_in m lines a b) ∨ (∃ i, r = Z.of_nat i ∧ last_in m lines a b i).

(** The log of the specification's example scenario. *)
Definition example_log : list string :=
  ["..."; "EditorCompilation:InvokeCompilationStarted"; "..."; "# Output";
   "ErrorA"; ""; "ErrorB"; "* Tundra ..."].

(** The path [get_editor_log_path] looks at. *)
Definition resolved_log_path (w : World) : Path :=
  let localappdata :=
    match environ w "LOCALAPPDATA" with
    | Some s => if String.eqb s "" then None else Some s
    | None => None
    end in
  MkPath
    (match localappdata with
     | Some s => s
     | None =>
         "/mnt/c/Users/" ++ default "Unknown" (environ w "USER") ++ "/AppData/Local"
     end)
    ["Unity"; "Editor"; "Editor.log"].

(** A result dict of the compile surface: exactly the three keys, a boolean
    [success], and no log entries on failure. *)
Definition well_formed_result (v : val) : Prop :=
  ∃ d, v = VDict d
       ∧ dom d = {[ "success"; "message"; "compilation_logs" ]}
       ∧ (∃ b, d !! "success" = Some (VBool b))
       ∧ (d !! "success" = Some (VBool false) ->
          d !! "compilation_logs" = Some (VList [])).

(** The connection a call ends up with: the one passed in, else whatever
    [get_unity_connection] gives. *)
Definition connection_for (get_unity_connection : M (option Bridge))
    (given : option Bridge) : M (option Bridge) :=
  match given with
  | Some b => mret (Some b)
  | None => get_unity_connection
  end.

(** ** Concrete surroundings used in the examples *)

(** No environment variable is set and no file exists. *)
Definition bare_world : World :=
  MkWorld (fun _ => None) (fun _ => Ok false)
          (fun _ => Raise (Exn "FileNotFoundError" "No such file or directory")).

(** [get_unity_connection] when Unity cannot be reached. *)
Definition refused_connection : M (option Bridge) :=
  fun w => (Raise (Exn "ConnectionError" "Could not connect to Unity"), w).

(** A [get_unity_connection] that hands back no connection object. *)
Definition absent_connection : M (option Bridge) := mret None.

Definition instant_sleep : Z -> World -> World := fun _ w => w.

(** A connection whose executor answers every command with [response]. *)
Definition canned_bridge (response : val) : Bridge :=
  MkBridge (fun _ _ w => (Ok response, w)).

(** An [add_tool] that keeps the names it holds and leaves the tool it has
    when a name is registered again. *)
Definition keep_first (names : list string) (r : Registration)
    : exc () * list string :=
  (Ok (), if bool_decide (reg_name r ∈ names) then names
          else (names ++ [reg_name r])%list).

(** An [add_tool] that turns every call down. *)
Definition refuse_all (names : list string) (r : Registration)
    : exc () * list string :=
  (Raise (Exn "ValueError" "description must be a string"), names).

Definition scene_info_meta : val :=
  VDict (dict_of [("commandType", VStr "get-scene-info");
                  ("description", VStr "Describe the open scene")]).

Definition scene_info_registration : Registration :=
  MkRegistration (MkTool "get-scene-info" "get_scene_info" [])
                 "get_scene_info" (VStr "Describe the open scene").

(** ** Notions used by the further properties *)

(** Success flag and entries that go with an outcome. *)
Definition core_success (oc : outcome) : bool :=
  match oc with
  | NoOutput _ _ | Found _ _ _ => true
  | _ => false
  end.

Definition server_success (oc : outcome) : bool :=
  match oc with
  | Found _ _ _ => true
  | _ => false
  end.

Definition answer_logs (lines : list string) (oc : outcome) : list string :=
  match oc with
  | Found s t o => trimmed_between lines o t
  | _ => []
  end.

(** The most recent session reaches its section marker without an output
    marker: [s] is the last start-marker line, [t] the last section-marker
    line after it, and no line strictly between them holds the output
    marker. *)
Definition no_output_session (lines : list string) : Prop :=
  ∃ s t,
    is_last_in START_MARKER lines 0 (length lines) s = true
    ∧ is_last_in SECTION_MARKER lines (S s) (length lines) t = true
    ∧ marker_free OUTPUT_MARKER lines (S s) t = true.

(** The outcome of a session when [n] older lines are put in front of it. *)
Definition shift_outcome (n : nat) (oc : outcome) : outcome :=
  match oc with
  | MissingStart => MissingStart
  | MissingSection s => MissingSection (n + s)
  | NoOutput s t => NoOutput (n + s) (n + t)
  | Found s t o => Found (n + s) (n + t) (n + o)
  end.

(** [Path.exists] itself fails, as it does on a directory that may not be
    searched. *)
Definition locked_world : World :=
  MkWorld (fun _ => None)
          (fun _ => Raise (Exn "PermissionError" "[Errno 13] Permission denied"))
          (fun _ => Raise (Exn "PermissionError" "[Errno 13] Permission denied")).

(** The log exists but cannot be opened. *)
Definition unreadable_world : World :=
  MkWorld (fun _ => None) (fun _ => Ok true)
          (fun _ => Raise (Exn "PermissionError" "[Errno 13] Permission denied")).

(** A connection whose [send_command] raises [e]. *)
Definition broken_bridge (e : exn) : Bridge :=
  MkBridge (fun _ _ w => (Raise e, w)).

(** [v] is a dict. *)
Definition is_dict (v : val) : bool :=
  match v with
  | VDict _ => true
  | _ => false
  end.

(** [d.get(k1) or d.get(k2, dflt)] *)
Definition either_key (d : gmap string val) (k1 k2 : string) (dflt : val) : val :=
  let a := default VNone (d !! k1) in
  if truthy a then a else default dflt (d !! k2).

(** The command name of a descriptor: a non-empty string under
    "CommandType" or "commandType". *)
Definition descriptor_command (tool_meta : val) : option string :=
  match tool_meta with
  | VDict d =>
      match either_key d "CommandType" "commandType" VNone with
      | VStr c => if String.eqb c "" then None else Some c
      | _ => None
      end
  | _ => None
  end.

(** A parameter entry the registration accepts: a dict whose type is a
    string and whose name can be hashed. *)
Definition param_ok (param : val) : bool :=
  match param with
  | VDict d =>
      match either_key d "Type" "type" (VStr "str") with
      | VStr _ => true
      | _ => false
      end
      && match either_key d "Name" "name" (VStr "unknown") with
         | VList _ | VDict _ => false
         | _ => true
         end
  | _ => false
  end.

Definition param_name (param : val) : val :=
  match param with
  | VDict d => either_key d "Name" "name" (VStr "unknown")
  | _ => VNone
  end.

(** The registration a well-formed descriptor stands for: a named dict whose
    parameters are a list of acceptable entries. *)
Definition well_formed_descriptor (tool_meta : val) : option Registration :=
  match tool_meta, descriptor_command tool_meta with
  | VDict d, Some c =>
      match either_key d "Parameters" "parameters" (VList []) with
      | VList ps =>
          if forallb param_ok ps then
            Some (MkRegistration
                    (MkTool c (dashes_to_underscores c) (param_name <$> ps))
                    (dashes_to_underscores c)
                    (either_key d "Description" "description" (VStr "")))
          else None
      | _ => None
      end
  | _, _ => None
  end.

(** An [mcp] after further [add_tool] calls [calls], made in order: each
    call is recorded and leaves the registry as [add_tool] leaves it. *)
Definition after_calls {Registry : Type}
    (add_tool : Registry -> Registration -> exc () * Registry)
    (mcp : Mcp) (calls : list Registration) : Mcp :=
  MkMcp (foldl (fun registry r => (add_tool registry r).2) (mcp_registry mcp) calls)
        (add_tool_calls mcp ++ calls).

(** The [add_tool] call one round of the registration loop makes, if any. *)
Definition try_register (tool_meta : val) : option Registration :=
  match read_command_type tool_meta with
  | Ok ct =>
      match register_one tool_meta ct with
      | Ok (Some r) => Some r
      | _ => None
      end
  | Raise _ => None
  end.

Definition move_object_meta : val :=
  VDict (dict_of [("CommandType", VStr "move-object");
                  ("Description", VStr "Move a GameObject");
                  ("Parameters",
                   VList [VDict (dict_of [("Name", VStr "target");
                                          ("Type", VStr "string")]);
                          VDict (dict_of [("name", VStr "distance");
                                          ("type", VStr "int")])])]).

Definition move_object_registration : Registration :=
  MkRegistration (MkTool "move-object" "move_object" [VStr "target"; VStr "distance"])
                 "move_object" (VStr "Move a GameObject").

(** The tools value a [list_tools] response dict announces: its
    ["data"]["tools"], provided "success" is truthy and "data" is a dict. *)
Definition announced_tools (d : gmap string val) : option val :=
  if truthy (default VNone (d !! "success")) then
    match default VNone (d !! "data") with
    | VDict tools_data => tools_data !! "tools"
    | _ => None
    end
  else None.

(** [get_unity_connection] when Unity answers on connection [b]. *)
Definition unity_at (b : Bridge) : M (option Bridge) := mret (Some b).

Definition list_tools_response (tools : val) : val :=
  VDict (dict_of [("success", VBool true);
                  ("data", VDict (dict_of [("tools", tools)]))]).

(** The prompt around a given tools section. *)
Definition prompt_around (tools_section : string) : string :=
  "Available Unity MCP Server Tools:\n\n" ++ tools_section ++ "\n\n"
    ++ "Tips:\n"
    ++ "- Create prefabs for reusable GameObjects.\n"
    ++ "- Always include a camera and main light in your scenes.\n"
    ++ "- Tools are automatically discovered from your Unity project.\n".

(** A descriptor dict with neither a "commandType" nor a "description"
    key. *)
Definition lacks_camel_keys (tool : val) : bool :=
  match tool with
  | VDict d =>
      bool_decide (d !! "commandType" = None)
      && bool_decide (d !! "description" = None)
  | _ => false
  end.


(** Renderings used in the examples. *)
Definition no_repr : val -> string := fun _ => "".

(** The log exists and holds the example session. *)
Definition logged_world : World :=
  MkWorld (fun _ => None) (fun _ => Ok true) (fun _ => Ok example_log).



(** A console that prints everything. *)
Definition print_all : () -> string -> exc () * () := fun c _ => (Ok (), c).


(** A pipe whose reader goes away after [n] more lines. *)
Definition closing_pipe (n : nat) (s : string) : exc () * nat :=
  match n with
  | O => (Raise (Exn "BrokenPipeError" "[Errno 32] Broken pipe"), O)
  | S k => (Ok (), k)
  end.

Definition no_json : val -> exc string :=
  fun _ => Raise (Exn "TypeError" "Object is not JSON serializable").

(** * Strings *)

Lemma prefix_spec a b :
  String.prefix a b = true <-> ∃ post, b = a ++ post.
Proof.
  revert b. induction a as [|c a IH]; intros b.
  - split; [intros _; by exists b|intros _; by destruct b].
  - destruct b as [|c' b]; simpl.
    + split; [done|intros [post [=]]].
    + destruct (ascii_dec c c') as [->|Hne].
      * rewrite IH. split; intros [post H]; exists post; [by rewrite H|by injection H].
      * split; [done|]. intros [post [= ? _]]. done.
Qed.

Lemma str_in_unfold needle hay :
  str_in needle hay =
    String.prefix needle hay
    || match hay with
       | EmptyString => false
       | String _ hay' => str_in needle hay'
       end.
Proof. by destruct hay. Qed.

(** [needle in hay] holds exactly when [hay] is [pre + needle + post]. *)
Lemma str_in_spec needle hay :
  str_in needle hay = true <-> ∃ pre post, hay = pre ++ needle ++ post.
Proof.
  split.
  - induction hay as [|c hay IH]; rewrite str_in_unfold, orb_true_iff.
    + intros [H|?]; [|done]. apply prefix_spec in H as [post ->]. by exists "", post.
    + intros [H|H].
      * apply prefix_spec in H as [post H]. by exists "", post.
      * destruct (IH H) as (pre & post & ->). by exists (String c pre), post.
  - intros (pre & post & ->). induction pre as [|c pre IH].
    + rewrite str_in_unfold.
      assert (String.prefix needle ("" ++ needle ++ post) = true) as ->
        by (apply prefix_spec; eauto).
      done.
    + change (String c pre ++ needle ++ post)
        with (String c (pre ++ needle ++ post)).
      rewrite str_in_unfold, IH. apply orb_true_r.
Qed.

Example strip_examples :
  strip "  error CS0103: name 'x'  " = "error CS0103: name 'x'"
  ∧ strip (String "009" (String "013" (String "010" ""))) = ""
  ∧ strip "" = ""
  ∧ strip "a b" = "a b".
Proof. repeat split. Qed.

(** * Scanning lemmas *)

Lemma marker_at_lookup m lines i l :
  lines !! i = Some l -> marker_at m lines i = str_in m l.
Proof. intros H. unfold marker_at. by rewrite H. Qed.

Lemma marker_free_spec m lines a b :
  (b ≤ length lines)%nat ->
  marker_free m lines a b = true <-> none_in m lines a b.
Proof.
  intros Hb. unfold marker_free, none_in.
  rewrite forallb_forall. split.
  - intros H j Hj. unfold marker_at.
    destruct (lines !! j) as [l|] eqn:E; [|done]. simpl.
    apply negb_true_iff, H. apply list_elem_of_In, list_elem_of_lookup.
    exists (j - a)%nat. rewrite lookup_take_lt by lia.
    rewrite lookup_drop. by replace (a + (j - a))%nat with j by lia.
  - intros H l Hl. apply list_elem_of_In, list_elem_of_lookup in Hl as [i Hi].
    apply lookup_take_Some in Hi as [Hi Hlt]. rewrite lookup_drop in Hi.
    specialize (H (a + i)%nat ltac:(lia)).
    rewrite (marker_at_lookup _ _ _ _ Hi) in H. by rewrite H.
Qed.

Lemma is_last_in_spec m lines a b i :
  (b ≤ length lines)%nat ->
  is_last_in m lines a b i = true <-> last_in m lines a b i.
Proof.
  intros Hb. unfold is_last_in, last_in.
  rewrite !andb_true_iff, Nat.leb_le, Nat.ltb_lt, marker_free_spec by done.
  tauto.
Qed.

Lemma last_in_unique m lines a b i j :
  last_in m lines a b i -> last_in m lines a b j -> i = j.
Proof.
  intros (Hi & Mi & Ni) (Hj & Mj & Nj).
  destruct (Nat.lt_trichotomy i j) as [H|[H|H]]; [|done|].
  - rewrite Ni in Mj by lia. done.
  - rewrite Nj in Mi by lia. done.
Qed.

Lemma last_in_not_none m lines a b i :
  last_in m lines a b i -> none_in m lines a b -> False.
Proof. intros (Hi & Mi & _) N. rewrite N in Mi by lia. done. Qed.

Lemma py_getitem_lookup lines (i : nat) l :
  lines !! i = Some l -> py_getitem lines (Z.of_nat i) = Ok l.
Proof.
  intros H. pose proof (lookup_lt_Some _ _ _ H) as Hlt.
  unfold py_getitem.
  destruct (Z.ltb_spec (Z.of_nat i) 0) as [?|_]; [lia|].
  destruct (Z.leb_spec 0 (Z.of_nat i)) as [_|?]; [|lia].
  destruct (Z.ltb_spec (Z.of_nat i) (Z.of_nat (length lines))) as [_|?]; [|lia].
  simpl. by rewrite Nat2Z.id, H.
Qed.

Lemma exc_bind_Ok {A B} (a : A) (f : A -> exc B) : (Ok a ≫= f) = f a.
Proof. reflexivity. Qed.

Lemma scan_down_S m lines lo k :
  scan_down m lines lo (S k) =
    (line ← py_getitem lines (lo + Z.of_nat (S k));
     if str_in m line then Ok (lo + Z.of_nat (S k)) else scan_down m lines lo k).
Proof. reflexivity. Qed.

Lemma scan_down_spec m lines a k :
  (a + k ≤ length lines)%nat ->
  ∃ r, scan_down m lines (Z.of_nat a - 1) k = Ok r ∧ scan_post m lines a (a + k) r.
Proof.
  induction k as [|k IH]; intros Hk.
  - exists (-1). split; [done|]. left. split; [done|]. intros j Hj. lia.
  - rewrite scan_down_S.
    replace (Z.of_nat a - 1 + Z.of_nat (S k)) with (Z.of_nat (a + k)) by lia.
    destruct (lookup_lt_is_Some_2 lines (a + k)%nat ltac:(lia)) as [l Hl].
    rewrite (py_getitem_lookup _ _ _ Hl), exc_bind_Ok.
    destruct (str_in m l) eqn:E.
    + eexists. split; [done|]. right. exists (a + k)%nat.
      split; [done|]. split; [lia|]. split.
      * by rewrite (marker_at_lookup _ _ _ _ Hl).
      * intros j Hj. lia.
    + destruct IH as (r & Hr & Hpost); [lia|].
      exists r. split; [done|].
      assert (Hnew : marker_at m lines (a + k) = false)
        by (by rewrite (marker_at_lookup _ _ _ _ Hl)).
      destruct Hpost as [[-> N]|(i & -> & Hi & Mi & Ni)].
      * left. split; [done|]. intros j Hj.
        destruct (decide (j = (a + k)%nat)) as [->|]; [done|]. apply N. lia.
      * right. exists i. split; [done|]. split; [lia|]. split; [done|].
        intros j Hj.
        destruct (decide (j = (a + k)%nat)) as [->|]; [done|]. apply Ni. lia.
Qed.

Lemma find_last_spec m lines hi lo (a b : nat) :
  lo = Z.of_nat a - 1 -> hi = Z.of_nat b - 1 ->
  (a ≤ b ≤ length lines)%nat ->
  ∃ r, find_last m lines hi lo = Ok r ∧ scan_post m lines a b r.
Proof.
  intros -> -> Hab. unfold find_last.
  replace (Z.to_nat (Z.of_nat b - 1 - (Z.of_nat a - 1))) with (b - a)%nat by lia.
  destruct (scan_down_spec m lines a (b - a) ltac:(lia)) as (r & Hr & Hpost).
  exists r. split; [done|]. by replace b with (a + (b - a))%nat by lia.
Qed.

Lemma collect_spec lines k : ∀ (i : nat) acc,
  (i + k ≤ length lines)%nat ->
  collect lines (Z.of_nat i) k acc =
    Ok (acc ++ filter (fun l => l ≠ "") (strip <$> take k (drop i lines)))%list.
Proof.
  induction k as [|k IH]; intros i acc Hk.
  - simpl. by rewrite app_nil_r.
  - destruct (lookup_lt_is_Some_2 lines i ltac:(lia)) as [l Hl].
    simpl collect. rewrite (py_getitem_lookup _ _ _ Hl), exc_bind_Ok.
    replace (Z.of_nat i + 1) with (Z.of_nat (S i)) by lia.
    rewrite IH by lia.
    rewrite (drop_S _ _ _ Hl). simpl take. rewrite fmap_cons, filter_cons.
    destruct (String.eqb_spec (strip l) "") as [->|Hne].
    + by rewrite decide_False by (intros H; by apply H).
    + rewrite decide_True by done. by rewrite <- app_assoc.
Qed.

Lemma extract_logs_spec lines (o t : nat) :
  (o < t ≤ length lines)%nat ->
  extract_logs lines (Z.of_nat o) (Z.of_nat t) = Ok (trimmed_between lines o t).
Proof.
  intros H. unfold extract_logs, trimmed_between.
  replace (Z.of_nat o + 1) with (Z.of_nat (S o)) by lia.
  replace (Z.to_nat (Z.of_nat t - Z.of_nat (S o))) with (t - S o)%nat by lia.
  by rewrite collect_spec by lia.
Qed.

(** Both extractors are total, and their answer is determined by where the
    markers of the most recent session are. *)
Lemma parse_lines_classified lines :
  ∃ oc, classify lines oc
        ∧ parse_lines lines = Ok (core_answer lines oc)
        ∧ server_parse_lines lines = Ok (server_answer lines oc).
Proof.
  unfold parse_lines, server_parse_lines.
  destruct (find_last_spec START_MARKER lines (Z.of_nat (length lines) - 1) (-1)
              0 (length lines)) as (r1 & -> & [[-> N1]|(s & -> & Hs)]);
    [done|done|lia| |]; rewrite !exc_bind_Ok.
  { exists MissingStart. split; [by constructor|]. done. }
  destruct (Z.eqb_spec (Z.of_nat s) (-1)) as [?|_]; [lia|].
  assert (s < length lines)%nat by (destruct Hs; lia).
  destruct (find_last_spec SECTION_MARKER lines (Z.of_nat (length lines) - 1)
              (Z.of_nat s) (S s) (length lines))
    as (r2 & -> & [[-> N2]|(t & -> & Ht)]);
    [lia|done|lia| |]; rewrite !exc_bind_Ok.
  { exists (MissingSection s). split; [by constructor|]. done. }
  destruct (Z.eqb_spec (Z.of_nat t) (-1)) as [?|_]; [lia|].
  assert (s < t < length lines)%nat by (destruct Ht; lia).
  destruct (find_last_spec OUTPUT_MARKER lines (Z.of_nat t - 1)
              (Z.of_nat s) (S s) t)
    as (r3 & -> & [[-> N3]|(o & -> & Ho)]);
    [lia|done|lia| |]; rewrite !exc_bind_Ok.
  { exists (NoOutput s t). split; [by constructor|]. done. }
  destruct (Z.eqb_spec (Z.of_nat o) (-1)) as [?|_]; [lia|].
  assert (s < o < t)%nat by (destruct Ho; lia).
  rewrite extract_logs_spec by lia. rewrite !exc_bind_Ok.
  exists (Found s t o). split; [by constructor|]. done.
Qed.

Lemma classify_functional lines oc1 oc2 :
  classify lines oc1 -> classify lines oc2 -> oc1 = oc2.
Proof.
  intros H1 H2.
  destruct H1 as [N1|s1 S1 N1|s1 t1 S1 T1 N1|s1 t1 o1 S1 T1 O1];
    destruct H2 as [N2|s2 S2 N2|s2 t2 S2 T2 N2|s2 t2 o2 S2 T2 O2];
    try (exfalso; eauto using last_in_not_none; fail);
    try (pose proof (last_in_unique _ _ _ _ _ _ S1 S2); subst s2);
    try (exfalso; eauto using last_in_not_none; fail);
    try (pose proof (last_in_unique _ _ _ _ _ _ T1 T2); subst t2);
    try (exfalso; eauto using last_in_not_none; fail);
    try (pose proof (last_in_unique _ _ _ _ _ _ O1 O2); subst o2);
    done.
Qed.

Lemma parse_lines_of_classify lines oc :
  classify lines oc ->
  parse_lines lines = Ok (core_answer lines oc)
  ∧ server_parse_lines lines = Ok (server_answer lines oc).
Proof.
  intros H. destruct (parse_lines_classified lines) as (oc' & H' & Hc & Hs).
  by rewrite (classify_functional _ _ _ H H').
Qed.

(** * Log window extraction: specified behaviour *)

Example example_log_entries :
  trimmed_between example_log 3 7 = ["ErrorA"; "ErrorB"].
Proof. reflexivity. Qed.

Example example_log_parsed :
  parse_lines example_log =
    Ok (compile_result true "Successfully read 2 compilation records (from 3 to 7)"
          ["ErrorA"; "ErrorB"]).
Proof. vm_compute. reflexivity. Qed.

Lemma classify_found_bool lines s t o :
  is_last_in START_MARKER lines 0 (length lines) s = true ->
  is_last_in SECTION_MARKER lines (S s) (length lines) t = true ->
  is_last_in OUTPUT_MARKER lines (S s) t o = true ->
  classify lines (Found s t o).
Proof.
  intros Hs Ht Ho.
  apply is_last_in_spec in Hs; [|done]. apply is_last_in_spec in Ht; [|done].
  apply is_last_in_spec in Ho; [|destruct Ht; lia].
  by constructor.
Qed.

Lemma classify_no_output_bool lines s t :
  is_last_in START_MARKER lines 0 (length lines) s = true ->
  is_last_in SECTION_MARKER lines (S s) (length lines) t = true ->
  marker_free OUTPUT_MARKER lines (S s) t = true ->
  classify lines (NoOutput s t).
Proof.
  intros Hs Ht Ho.
  apply is_last_in_spec in Hs; [|done]. apply is_last_in_spec in Ht; [|done].
  apply marker_free_spec in Ho; [|destruct Ht; lia].
  by constructor.
Qed.

(** C1.  When line [s] is the last start-marker line, line [t] the last
    section-marker line after it and line [o] the last output-marker line
    between the two, both extractors (the core's and the one written out in
    the [compile_project] tool) succeed, and their [compilation_logs] are the
    stripped, non-empty lines strictly between [o] and [t], in order. *)
Theorem marker_ordering_entries lines s t o :
  is_last_in START_MARKER lines 0 (length lines) s = true ->
  is_last_in SECTION_MARKER lines (S s) (length lines) t = true ->
  is_last_in OUTPUT_MARKER lines (S s) t o = true ->
  (∃ message, parse_lines lines =
                Ok (compile_result true message (trimmed_between lines o t)))
  ∧ (∃ message, server_parse_lines lines =
                  Ok (compile_result true message (trimmed_between lines o t))).
Proof.
  intros Hs Ht Ho.
  destruct (parse_lines_of_classify lines _ (classify_found_bool _ _ _ _ Hs Ht Ho))
    as [-> ->].
  split; eexists; reflexivity.
Qed.

Lemma marker_ordering_entries_witness :
  (∃ message, parse_lines example_log =
                Ok (compile_result true message (trimmed_between example_log 3 7)))
  ∧ (∃ message, server_parse_lines example_log =
                  Ok (compile_result true message (trimmed_between example_log 3 7))).
Proof. apply (marker_ordering_entries example_log 1 7 3); reflexivity. Defined.

(** A session without an output marker: the core reports a clean compile. *)
Lemma no_output_core_success lines s t :
  is_last_in START_MARKER lines 0 (length lines) s = true ->
  is_last_in SECTION_MARKER lines (S s) (length lines) t = true ->
  marker_free OUTPUT_MARKER lines (S s) t = true ->
  ∃ message, parse_lines lines = Ok (compile_result true message []).
Proof.
  intros Hs Ht Ho.
  destruct (parse_lines_of_classify lines _ (classify_no_output_bool _ _ _ Hs Ht Ho))
    as [-> _].
  eexists; reflexivity.
Qed.

(** The same session seen by the [compile_project] tool of [server.py]: a
    failure. *)
Lemma no_output_server_failure lines s t :
  is_last_in START_MARKER lines 0 (length lines) s = true ->
  is_last_in SECTION_MARKER lines (S s) (length lines) t = true ->
  marker_free OUTPUT_MARKER lines (S s) t = true ->
  ∃ message, server_parse_lines lines = Ok (compile_result false message []).
Proof.
  intros Hs Ht Ho.
  destruct (parse_lines_of_classify lines _ (classify_no_output_bool _ _ _ Hs Ht Ho))
    as [_ ->].
  eexists; reflexivity.
Qed.

(** C2.  On the two-line log made of a start-marker line followed by a
    section-marker line, with no output marker in between, the core extractor
    answers success with no entries, while the extractor of the
    [compile_project] tool of [server.py] answers a failure. *)
Theorem clean_compile_divergence :
  parse_lines [START_MARKER; SECTION_MARKER] =
    Ok (compile_result true
          "No errors found in this compilation. (# Output not found before * Tundra (from 0 to 1))"
          [])
  ∧ server_parse_lines [START_MARKER; SECTION_MARKER] =
      Ok (compile_result false "# Output not found before * Tundra from 0 to 1" []).
Proof. split; vm_compute; reflexivity. Qed.

(** C4.  Without any start-marker line both extractors fail with the message
    naming the start marker and no entries; when [s] is the last
    start-marker line and no section-marker line follows it, they fail with
    the message naming the section marker and no entries. *)
Theorem missing_marker_failures lines :
  (marker_free START_MARKER lines 0 (length lines) = true ->
   let message := "EditorCompilation:InvokeCompilationStarted marker not found" in
   parse_lines lines = Ok (compile_result false message [])
   ∧ server_parse_lines lines = Ok (compile_result false message [])
   ∧ str_in START_MARKER message = true)
  ∧ (∀ s,
       is_last_in START_MARKER lines 0 (length lines) s = true ->
       marker_free SECTION_MARKER lines (S s) (length lines) = true ->
       let message :=
         "* Tundra not found after EditorCompilation:InvokeCompilationStarted" in
       parse_lines lines = Ok (compile_result false message [])
       ∧ server_parse_lines lines = Ok (compile_result false message [])
       ∧ str_in SECTION_MARKER message = true).
Proof.
  split.
  - intros H message. apply marker_free_spec in H; [|done].
    destruct (parse_lines_of_classify lines MissingStart) as [-> ->];
      [by constructor|done].
  - intros s Hs Ht message.
    apply is_last_in_spec in Hs; [|done]. apply marker_free_spec in Ht; [|done].
    destruct (parse_lines_of_classify lines (MissingSection s)) as [-> ->];
      [by constructor|done].
Qed.

Lemma missing_marker_failures_witness :
  parse_lines ["Refreshing native plugins"; "# Output"] =
    Ok (compile_result false
          "EditorCompilation:InvokeCompilationStarted marker not found" [])
  ∧ parse_lines [START_MARKER; "# Output"; "error CS0103"] =
      Ok (compile_result false
            "* Tundra not found after EditorCompilation:InvokeCompilationStarted" []).
Proof.
  split.
  - apply (missing_marker_failures ["Refreshing native plugins"; "# Output"]).
    reflexivity.
  - apply (missing_marker_failures [START_MARKER; "# Output"; "error CS0103"])
      with (s := 0%nat); reflexivity.
Defined.

(** * Compile orchestration: specified behaviour *)

Lemma M_bind_unfold {A B} (x : M A) (f : A -> M B) w :
  (x ≫= f) w =
    match x w with
    | (Ok a, w') => f a w'
    | (Raise e, w') => (Raise e, w')
    end.
Proof. reflexivity. Qed.

Lemma M_ret_bind {A B} (a : A) (f : A -> M B) w : (mret a ≫= f) w = f a w.
Proof. reflexivity. Qed.

Lemma compile_result_well_formed b message logs :
  (b = false -> logs = []) -> well_formed_result (compile_result b message logs).
Proof.
  intros H. eexists. split; [reflexivity|]. unfold dict_of. simpl foldl.
  split; [|split].
  - rewrite !dom_insert_L, dom_empty_L. set_solver.
  - exists b. by simplify_map_eq.
  - intros Hb. simplify_map_eq. by rewrite H.
Qed.

Lemma core_answer_well_formed lines oc : well_formed_result (core_answer lines oc).
Proof. destruct oc; apply compile_result_well_formed; done. Qed.

Lemma parse_lines_well_formed lines :
  ∃ v, parse_lines lines = Ok v ∧ well_formed_result v.
Proof.
  destruct (parse_lines_classified lines) as (oc & _ & -> & _).
  eexists. split; [done|]. apply core_answer_well_formed.
Qed.

Section Orchestrator.

Variable get_unity_connection : M (option Bridge).
Variable time_sleep : Z -> World -> World.

Lemma get_editor_log_path_spec w :
  get_editor_log_path w =
    (found ← path_exists w (resolved_log_path w);
     Ok (if found : bool then Some (resolved_log_path w) else None), w).
Proof.
  unfold get_editor_log_path, resolved_log_path, environ_get, ask, exists_.
  unfold mbind, M_bind, mret, M_ret, path_div, exc_bind, env_truthy.
  destruct (environ w "LOCALAPPDATA") as [s|]; [destruct (String.eqb s "")|];
    simpl; by destruct (path_exists w _) as [[]|].
Qed.

Lemma trigger_with_bridge b w :
  ∃ r w', trigger_compilation_via_unity get_unity_connection time_sleep (Some b) w = (Ok r, w').
Proof.
  unfold trigger_compilation_via_unity, try_except.
  rewrite M_ret_bind, M_bind_unfold.
  destruct (send_command b _ _ w) as [[resp|e] w2]; [|by eauto].
  rewrite M_bind_unfold. unfold lift.
  destruct (py_get resp "success" (VBool true)) as [success|e]; [|by eauto].
  match goal with |- context [truthy ?x] => destruct (truthy x) end; by eauto.
Qed.

Lemma trigger_total uc w : ∃ r w', trigger_compilation_via_unity get_unity_connection time_sleep uc w = (Ok r, w').
Proof.
  destruct uc as [b|]; [apply trigger_with_bridge|].
  destruct (get_unity_connection w) as [[[b|]|e] w1] eqn:E.
  - destruct (trigger_with_bridge b w1) as (r & w' & H). exists r, w'.
    revert H. unfold trigger_compilation_via_unity, try_except.
    rewrite M_ret_bind, (M_bind_unfold get_unity_connection), E. done.
  - unfold trigger_compilation_via_unity, try_except.
    rewrite M_bind_unfold, E. by eauto.
  - unfold trigger_compilation_via_unity, try_except.
    rewrite M_bind_unfold, E. by eauto.
Qed.

Lemma parse_compilation_logs_total p w :
  ∃ v, parse_compilation_logs p w = (Ok v, w) ∧ well_formed_result v.
Proof.
  unfold parse_compilation_logs, try_except, open_readlines.
  rewrite M_bind_unfold.
  destruct (read_lines w p) as [lines|e].
  - unfold lift. destruct (parse_lines_well_formed lines) as (v & -> & Hv). eauto.
  - eexists. split; [done|]. by apply compile_result_well_formed.
Qed.

(** With the trigger skipped and the log readable, [compile_project] is the
    core extractor run on the lines of the log. *)
Lemma compile_project_reads_log uc w lines :
  path_exists w (resolved_log_path w) = Ok true ->
  read_lines w (resolved_log_path w) = Ok lines ->
  compile_project get_unity_connection time_sleep uc true w = (parse_lines lines, w).
Proof.
  intros He Hr. unfold compile_project, try_except. simpl negb. cbv iota.
  rewrite M_ret_bind, M_bind_unfold, get_editor_log_path_spec, He. simpl.
  rewrite M_bind_unfold.
  unfold parse_compilation_logs, try_except, open_readlines.
  rewrite M_bind_unfold, Hr. unfold lift.
  destruct (parse_lines_well_formed lines) as (v & -> & d & -> & _ & (b & Hb) & _).
  rewrite M_bind_unfold. unfold py_subscript. by rewrite Hb.
Qed.

(** The [compile_project] tool of [server.py], without a connection and
    with the log readable, is its own extractor run on the lines. *)
Lemma server_compile_project_reads_log ctx w w1 lines :
  connection_for get_unity_connection (ctx_bridge ctx) w = (Ok None, w1) ->
  path_exists w1 (resolved_log_path w1) = Ok true ->
  read_lines w1 (resolved_log_path w1) = Ok lines ->
  server_compile_project get_unity_connection time_sleep ctx w =
    (server_parse_lines lines, w1).
Proof.
  intros Hc He Hr. unfold server_compile_project, try_except.
  unfold connection_for in Hc. rewrite M_bind_unfold, Hc, M_ret_bind.
  destruct (parse_lines_classified lines) as (oc & _ & _ & Hs).
  unfold mbind, M_bind, environ_get, ask, exists_, env_truthy, open_readlines,
    lift, path_div, resolved_log_path in *.
  destruct (environ w1 "LOCALAPPDATA") as [s|]; [destruct (String.eqb s "")|];
    simpl in *; rewrite He; simpl; rewrite Hr; simpl; rewrite Hs; done.
Qed.

(** C7.  With [skip_trigger] set, when the resolved [Editor.log] path does
    not exist, [compile_project] returns exactly the dict with a false
    [success], the message "Unity Editor.log not found" and no entries, and
    leaves the world as it was. *)
Theorem compile_project_log_missing uc w :
  path_exists w (resolved_log_path w) = Ok false ->
  compile_project get_unity_connection time_sleep uc true w =
    (Ok (VDict {[ "success" := VBool false;
                  "message" := VStr "Unity Editor.log not found";
                  "compilation_logs" := VList [] ]}), w).
Proof.
  intros H. unfold compile_project, try_except. simpl negb. cbv iota.
  rewrite M_ret_bind, M_bind_unfold, get_editor_log_path_spec, H. simpl.
  reflexivity.
Qed.

(** C9.  When the connection in use answers the trigger command with a dict
    that has no "error" key, whatever else the dict holds,
    [trigger_compilation_via_unity] sleeps its three seconds and returns
    [True]. *)
Theorem trigger_without_error_key uc b d w w1 w2 :
  connection_for get_unity_connection uc w = (Ok (Some b), w1) ->
  send_command b "project_files_refresher" ∅ w1 = (Ok (VDict d), w2) ->
  d !! "error" = None ->
  trigger_compilation_via_unity get_unity_connection time_sleep uc w = (Ok true, time_sleep 3 w2).
Proof.
  intros Hc Hs Hd.
  unfold trigger_compilation_via_unity, try_except. rewrite M_bind_unfold.
  unfold connection_for in Hc. rewrite Hc.
  rewrite M_bind_unfold, Hs. rewrite M_bind_unfold. unfold lift. simpl py_get.
  rewrite bool_decide_true by (by apply not_elem_of_dom).
  reflexivity.
Qed.

(** C10.  [parse_compilation_logs] and [compile_project] always return, and
    what they return is a dict with exactly the keys "success", "message"
    and "compilation_logs" whose "compilation_logs" is the empty list
    whenever "success" is false. *)
Theorem compile_results_well_formed p uc skip_trigger w :
  (∃ v w', parse_compilation_logs p w = (Ok v, w') ∧ well_formed_result v)
  ∧ (∃ v w', compile_project get_unity_connection time_sleep uc skip_trigger w = (Ok v, w') ∧ well_formed_result v).
Proof.
  split.
  - destruct (parse_compilation_logs_total p w) as (v & Hv & Hwf). eauto.
  - unfold compile_project, try_except. rewrite M_bind_unfold.
    assert (∃ w1, (if negb skip_trigger
                   then trigger_compilation_via_unity get_unity_connection time_sleep uc ≫= (fun _ => mret ())
                   else mret ()) w = (Ok (), w1)) as (w1 & ->).
    { destruct skip_trigger; simpl; [by eauto|].
      rewrite M_bind_unfold. destruct (trigger_total uc w) as (b & w1 & ->).
      by eauto. }
    rewrite M_bind_unfold, get_editor_log_path_spec.
    destruct (path_exists w1 (resolved_log_path w1)) as [[]|e]; simpl.
    + rewrite M_bind_unfold.
      destruct (parse_compilation_logs_total (resolved_log_path w1) w1)
        as (v & -> & Hwf).
      rewrite M_bind_unfold. unfold lift.
      destruct Hwf as (d & -> & Hdom & (b & Hb) & Hlogs).
      unfold py_subscript. rewrite Hb. simpl.
      do 2 eexists. split; [done|]. exists d. eauto.
    + do 2 eexists. split; [done|]. by apply compile_result_well_formed.
    + do 2 eexists. split; [done|]. by apply compile_result_well_formed.
Qed.

End Orchestrator.

Lemma trigger_without_error_key_witness :
  trigger_compilation_via_unity refused_connection instant_sleep
    (Some (canned_bridge (VDict {[ "success" := VBool false ]}))) bare_world
  = (Ok true, bare_world).
Proof.
  apply (trigger_without_error_key refused_connection instant_sleep
           (Some (canned_bridge (VDict {[ "success" := VBool false ]})))
           (canned_bridge (VDict {[ "success" := VBool false ]}))
           {[ "success" := VBool false ]} bare_world bare_world bare_world);
    reflexivity.
Defined.

Lemma compile_project_log_missing_witness :
  compile_project refused_connection instant_sleep None true bare_world =
    (Ok (VDict {[ "success" := VBool false;
                  "message" := VStr "Unity Editor.log not found";
                  "compilation_logs" := VList [] ]}), bare_world).
Proof.
  apply (compile_project_log_missing refused_connection instant_sleep None bare_world).
  reflexivity.
Defined.

(** * Dynamic tools: specified behaviour *)

Section Dispatch.

Variable get_unity_connection : M (option Bridge).

(** The body with a connection in hand. *)
Lemma tool_body_with_bridge cmd ctx kwargs b w w1 :
  connection_for get_unity_connection (ctx_bridge ctx) w = (Ok (Some b), w1) ->
  tool_body get_unity_connection cmd ctx kwargs w =
    (let (response, w2) := send_command b cmd kwargs w1 in
     (response ← response;
      success ← py_get response "success" VNone;
      if truthy success then
        message ← py_get response "message" (VStr "Operation successful");
        data ← py_get response "data" VNone;
        Ok (VDict (dict_of [("success", VBool true); ("message", message);
                            ("data", data)]))
      else
        error ← py_get response "error" (VStr "Unknown error");
        Ok (VDict (dict_of [("success", VBool false); ("message", error)])),
      w2)).
Proof.
  intros Hc. unfold tool_body, connection_for in *.
  rewrite M_bind_unfold, Hc, M_bind_unfold.
  destruct (send_command b cmd kwargs w1) as [[response|e] w2]; [|done].
  rewrite M_bind_unfold. unfold lift.
  destruct response; try done. unfold py_get. rewrite !exc_bind_Ok.
  destruct (truthy _); reflexivity.
Qed.



(** C5.  For a call whose arguments bind (none of them is called "ctx"),
    so that the command is forwarded, with a connection in hand and a dict
    [d] as the executor's response: a truthy [d["success"]] gives
    [{"success": True, "message": .., "data": ..}] with the response's
    message (default "Operation successful") and data (default [None]);
    otherwise the result is [{"success": False, "message": ..}] with the
    response's "error" entry, or "Unknown error" when it has none. *)
Theorem tool_func_maps_response cmd ctx kwargs b d w w1 w2 :
  kwargs !! "ctx" = None ->
  connection_for get_unity_connection (ctx_bridge ctx) w = (Ok (Some b), w1) ->
  send_command b cmd kwargs w1 = (Ok (VDict d), w2) ->
  tool_func get_unity_connection cmd ctx kwargs w =
    (Ok (VDict
           (if truthy (default VNone (d !! "success")) then
              {[ "success" := VBool true;
                 "message" := default (VStr "Operation successful") (d !! "message");
                 "data" := default VNone (d !! "data") ]}
            else
              {[ "success" := VBool false;
                 "message" := default (VStr "Unknown error") (d !! "error") ]})),
     w2).
Proof.
  intros Hk Hc Hs. unfold tool_func, try_except. rewrite Hk.
  rewrite (tool_body_with_bridge _ _ _ _ _ _ Hc), Hs.
  unfold py_get. rewrite !exc_bind_Ok.
  destruct (truthy _); reflexivity.
Qed.


End Dispatch.



Lemma tool_func_maps_response_witness :
  tool_func refused_connection "get-scene-info"
    (MkContext (Some (canned_bridge (VDict {[ "error" := VStr "No scene open" ]}))))
    ∅ bare_world =
    (Ok (VDict {[ "success" := VBool false;
                  "message" := VStr "No scene open" ]}), bare_world).
Proof.
  etrans.
  - apply (tool_func_maps_response refused_connection "get-scene-info"
             (MkContext (Some (canned_bridge (VDict {[ "error" := VStr "No scene open" ]}))))
             ∅ (canned_bridge (VDict {[ "error" := VStr "No scene open" ]}))
             {[ "error" := VStr "No scene open" ]} bare_world bare_world bare_world);
      reflexivity.
  - vm_compute. reflexivity.
Defined.


(** A response that is not a dict: the [.get] call raises and the tool
    reports it. *)
Example tool_func_non_dict_response :
  tool_func refused_connection "get-scene-info"
    (MkContext (Some (canned_bridge VNone))) ∅ bare_world =
    (Ok (VDict {[ "success" := VBool false;
                  "message" :=
                    VStr "Error: 'NoneType' object has no attribute 'get'" ]}),
     bare_world).
Proof. reflexivity. Qed.

(** A successful response is passed on with its message and data. *)
Example tool_func_success_response :
  tool_func refused_connection "get-scene-info"
    (MkContext (Some (canned_bridge
       (VDict {[ "success" := VBool true; "message" := VStr "ok";
                 "data" := VInt 7 ]})))) ∅ bare_world =
    (Ok (VDict {[ "success" := VBool true; "message" := VStr "ok";
                  "data" := VInt 7 ]}), bare_world).
Proof. reflexivity. Qed.

(** * Registration: specified behaviour *)

Lemma replace_go_cons old new c r :
  replace_go old new 0 (String c r) =
    if String.prefix old (String c r)
    then new ++ replace_go old new (Nat.pred (String.length old)) r
    else String c (replace_go old new 0 r).
Proof. reflexivity. Qed.

Lemma replace_go_dash s :
  replace_go "-" "_" 0 s = dashes_to_underscores s.
Proof.
  induction s as [|c r IH]; [done|].
  rewrite replace_go_cons.
  change (String.prefix "-" (String c r))
    with (if ascii_dec "-" c then String.prefix "" r else false).
  destruct (ascii_dec "-" c) as [<-|Hne].
  - replace (String.prefix "" r) with true by (by destruct r).
    simpl. by rewrite IH.
  - rewrite IH. simpl dashes_to_underscores.
    assert (Ascii.eqb c "-" = false) as ->
      by (apply Ascii.eqb_neq; congruence).
    done.
Qed.

Lemma py_replace_dash s : py_replace "-" "_" s = dashes_to_underscores s.
Proof. unfold py_replace. simpl String.eqb. cbv iota. apply replace_go_dash. Qed.

Lemma make_tool_func_spec cmd_type desc params_info tool :
  make_tool_func cmd_type desc params_info = Ok tool ->
  ∃ c, cmd_type = VStr c
       ∧ tool_cmd_type tool = c
       ∧ tool___name__ tool = dashes_to_underscores c.
Proof.
  unfold make_tool_func.
  destruct (py_iter params_info) as [params|]; [|done]. rewrite exc_bind_Ok.
  destruct (scan_params params) as [names|]; [|done]. rewrite exc_bind_Ok.
  destruct cmd_type; try done.
  intros [= <-]. eexists. split; [done|]. simpl. by rewrite py_replace_dash.
Qed.

Lemma register_one_spec tool_meta command_type r :
  register_one tool_meta command_type = Ok (Some r) ->
  ∃ c, command_type = VStr c
       ∧ tool_cmd_type (reg_tool r) = c
       ∧ tool___name__ (reg_tool r) = dashes_to_underscores c
       ∧ reg_name r = dashes_to_underscores c.
Proof.
  unfold register_one.
  destruct (py_get tool_meta "Description" VNone) as [d|]; [|done].
  rewrite exc_bind_Ok.
  destruct (if truthy d then _ else _) as [description|]; [|done].
  rewrite exc_bind_Ok.
  destruct (py_get tool_meta "Parameters" VNone) as [p|]; [|done].
  rewrite exc_bind_Ok.
  destruct (if truthy p then _ else _) as [parameters|]; [|done].
  rewrite exc_bind_Ok.
  destruct (truthy command_type); [|done]. simpl negb. cbv iota.
  destruct (make_tool_func command_type description parameters) as [tool|] eqn:E;
    [|done].
  rewrite exc_bind_Ok.
  destruct (make_tool_func_spec _ _ _ _ E) as (c & -> & Hc & Hn).
  intros [= <-]. exists c. simpl. by rewrite py_replace_dash.
Qed.



(** The descriptor of the example leads to one call, under the normalized
    name. *)
Example scene_info_registered :
  register_dynamic_unity_tools keep_first (MkMcp [] []) [scene_info_meta] =
    (Ok (), MkMcp ["get_scene_info"] [scene_info_registration]).
Proof. vm_compute. reflexivity. Qed.

(** A descriptor without a command type is skipped and the batch goes on. *)
Example nameless_descriptor_skipped :
  register_dynamic_unity_tools keep_first (MkMcp [] []) [VDict ∅; scene_info_meta] =
    (Ok (), MkMcp ["get_scene_info"] [scene_info_registration]).
Proof. vm_compute. reflexivity. Qed.

(** Two descriptors whose names differ only in dash and underscore lead to
    two calls under one name; this registry then holds one tool. *)
Example colliding_names_call_twice :
  register_dynamic_unity_tools keep_first (MkMcp [] [])
    [scene_info_meta; VDict (dict_of [("commandType", VStr "get_scene-info")])] =
    (Ok (),
     MkMcp ["get_scene_info"]
       [scene_info_registration;
        MkRegistration (MkTool "get_scene-info" "get_scene_info" [])
                       "get_scene_info" (VStr "")]).
Proof. vm_compute. reflexivity. Qed.

(** When [add_tool] raises, the call was made, no tool is held, and the
    batch goes on to the end. *)
Example refused_calls_go_on :
  register_dynamic_unity_tools refuse_all (MkMcp [] [])
    [scene_info_meta; move_object_meta] =
    (Ok (), MkMcp [] [scene_info_registration; move_object_registration]).
Proof. vm_compute. reflexivity. Qed.

(** * Further properties of the log window extraction *)

Lemma lstrip_head s :
  match lstrip s with
  | EmptyString => True
  | String c _ => is_space c = false
  end.
Proof.
  induction s as [|c r IH]; [done|]. simpl.
  destruct (is_space c) eqn:E; [done|]. by rewrite E.
Qed.

Lemma lstrip_no_space c r : is_space c = false -> lstrip (String c r) = String c r.
Proof. intros H. simpl. by rewrite H. Qed.

Lemma rstrip_cons c r :
  rstrip (String c r) =
    match rstrip r with
    | EmptyString => if is_space c then EmptyString else String c EmptyString
    | r' => String c r'
    end.
Proof. reflexivity. Qed.

Lemma rstrip_idem s : rstrip (rstrip s) = rstrip s.
Proof.
  induction s as [|c r IH]; [done|].
  rewrite rstrip_cons. destruct (rstrip r) as [|c' r'] eqn:E.
  - destruct (is_space c) eqn:Ec; [done|]. rewrite rstrip_cons. simpl. by rewrite Ec.
  - rewrite rstrip_cons, IH. done.
Qed.

Lemma rstrip_keeps_head c r :
  is_space c = false -> ∃ r', rstrip (String c r) = String c r'.
Proof.
  intros H. rewrite rstrip_cons, H. destruct (rstrip r); eauto.
Qed.

(** Stripping twice is stripping once: a stripped line has no white space
    left at either end. *)
Lemma strip_idem s : strip (strip s) = strip s.
Proof.
  unfold strip. pose proof (lstrip_head s) as H.
  destruct (lstrip s) as [|c r] eqn:E; [done|].
  destruct (rstrip_keeps_head c r H) as [r' Hr]. rewrite Hr.
  rewrite (lstrip_no_space _ _ H), <- Hr. apply rstrip_idem.
Qed.

Lemma core_answer_shape lines oc :
  ∃ message,
    core_answer lines oc = compile_result (core_success oc) message (answer_logs lines oc).
Proof. destruct oc; eexists; reflexivity. Qed.

Lemma server_answer_shape lines oc :
  ∃ message,
    server_answer lines oc =
      compile_result (server_success oc) message (answer_logs lines oc).
Proof. destruct oc; eexists; reflexivity. Qed.

Lemma trimmed_between_clean lines o t l :
  l ∈ trimmed_between lines o t ->
  l ≠ "" ∧ strip l = l ∧ ∃ raw, raw ∈ lines ∧ l = strip raw.
Proof.
  unfold trimmed_between. intros H.
  apply list_elem_of_filter in H as [Hne H].
  apply list_elem_of_fmap in H as (raw & -> & H).
  split; [done|]. split; [apply strip_idem|].
  exists raw. split; [|done].
  by apply (subseteq_drop (S o)), (subseteq_take (t - S o)).
Qed.

(** X1.  Whatever the log, the core extractor returns a result whose entries
    are all non-empty, carry no white space at either end, and are each the
    stripped form of a line of the log. *)
Theorem entries_are_clean lines :
  ∃ success message logs,
    parse_lines lines = Ok (compile_result success message logs)
    ∧ Forall (fun l => l ≠ "" ∧ strip l = l ∧ ∃ raw, raw ∈ lines ∧ l = strip raw)
             logs.
Proof.
  destruct (parse_lines_classified lines) as (oc & _ & -> & _).
  destruct (core_answer_shape lines oc) as [message ->].
  do 3 eexists. split; [done|].
  apply Forall_forall. intros l Hl.
  destruct oc; simpl in Hl; try by apply elem_of_nil in Hl.
  by eapply trimmed_between_clean.
Qed.

Lemma no_output_session_classify lines :
  no_output_session lines <-> ∃ s t, classify lines (NoOutput s t).
Proof.
  split.
  - intros (s & t & Hs & Ht & Ho). exists s, t. by apply classify_no_output_bool.
  - intros (s & t & Hc). inversion Hc as [| |s' t' Hs Ht Ho|]; subst.
    exists s, t.
    assert (t ≤ length lines)%nat by (destruct Ht; lia).
    split; [by apply is_last_in_spec|].
    split; [by apply is_last_in_spec|by apply marker_free_spec].
Qed.

(** X3.  On every log the two extractors return the same entries.  Their
    success flags are equal unless the most recent session reaches its
    section marker without an output marker; in exactly that case the core
    says success and the extractor of [server.py] says failure, both with no
    entries. *)
Theorem extractors_agree lines :
  ∃ b_core b_server m_core m_server logs,
    parse_lines lines = Ok (compile_result b_core m_core logs)
    ∧ server_parse_lines lines = Ok (compile_result b_server m_server logs)
    ∧ ((b_core = b_server ∧ ¬ no_output_session lines)
       ∨ (b_core = true ∧ b_server = false ∧ logs = []
          ∧ no_output_session lines)).
Proof.
  destruct (parse_lines_classified lines) as (oc & Hc & -> & ->).
  destruct (core_answer_shape lines oc) as [m1 ->].
  destruct (server_answer_shape lines oc) as [m2 ->].
  do 5 eexists. split; [done|]. split; [done|].
  assert (Hother : (∀ s t, oc ≠ NoOutput s t) -> ¬ no_output_session lines).
  { intros Hne Hno. apply no_output_session_classify in Hno as (s & t & Hno).
    apply (Hne s t). by eapply classify_functional. }
  destruct oc as [|s|s t|s t o]; simpl.
  - left. split; [done|]. by apply Hother.
  - left. split; [done|]. by apply Hother.
  - right. repeat split; try done. apply no_output_session_classify. eauto.
  - left. split; [done|]. by apply Hother.
Qed.

Lemma marker_at_app_r m old lines i :
  marker_at m (old ++ lines) (length old + i) = marker_at m lines i.
Proof.
  unfold marker_at. rewrite lookup_app_r by lia.
  by replace (length old + i - length old)%nat with i by lia.
Qed.

Lemma none_in_shift m old lines a b :
  none_in m lines a b -> none_in m (old ++ lines) (length old + a) (length old + b).
Proof.
  intros H j Hj.
  replace j with (length old + (j - length old))%nat by lia.
  rewrite marker_at_app_r. apply H. lia.
Qed.

Lemma last_in_shift m old lines a b i :
  last_in m lines a b i ->
  last_in m (old ++ lines) (length old + a) (length old + b) (length old + i).
Proof.
  intros (Hi & Mi & Ni). split; [lia|]. split; [by rewrite marker_at_app_r|].
  rewrite <- Nat.add_succ_r. by apply none_in_shift.
Qed.

Lemma last_in_lower m lines a a' b i :
  (a' ≤ a)%nat -> last_in m lines a b i -> last_in m lines a' b i.
Proof. intros Ha (Hi & Mi & Ni). split; [lia|done]. Qed.

Lemma classify_shift old lines oc :
  classify lines oc -> oc ≠ MissingStart ->
  classify (old ++ lines) (shift_outcome (length old) oc).
Proof.
  intros Hc Hne.
  destruct Hc as [N|s Hs N|s t Hs Ht N|s t o Hs Ht Ho]; [done|..]; simpl;
    constructor; rewrite ?length_app, <- ?Nat.add_succ_r;
    try (by apply last_in_shift); try (by apply none_in_shift);
    apply (last_in_lower _ _ (length old + 0)); try lia; by apply last_in_shift.
Qed.

Lemma trimmed_between_shift old lines o t :
  trimmed_between (old ++ lines) (length old + o) (length old + t)
  = trimmed_between lines o t.
Proof.
  unfold trimmed_between.
  rewrite <- Nat.add_succ_r, drop_app_add.
  by replace (length old + t - (length old + S o))%nat with (t - S o)%nat by lia.
Qed.

Lemma core_success_shift n oc : core_success (shift_outcome n oc) = core_success oc.
Proof. by destruct oc. Qed.

Lemma answer_logs_shift old lines oc :
  answer_logs (old ++ lines) (shift_outcome (length old) oc) = answer_logs lines oc.
Proof. destruct oc; simpl; try done. apply trimmed_between_shift. Qed.

(** X2.  Only the most recent session counts: when the lines [lines] hold a
    start marker, putting any older lines [old] in front of them changes
    neither the success flag nor the entries the core extractor returns. *)
Theorem older_sessions_ignored old lines :
  marker_free START_MARKER lines 0 (length lines) = false ->
  ∃ success m1 m2 logs,
    parse_lines lines = Ok (compile_result success m1 logs)
    ∧ parse_lines (old ++ lines) = Ok (compile_result success m2 logs).
Proof.
  intros Hstart.
  destruct (parse_lines_classified lines) as (oc & Hc & -> & _).
  assert (oc ≠ MissingStart) as Hne.
  { intros ->. inversion Hc as [N| | |].
    apply marker_free_spec in N; [|done]. congruence. }
  destruct (parse_lines_of_classify _ _ (classify_shift old _ _ Hc Hne)) as [-> _].
  destruct (core_answer_shape lines oc) as [m1 ->].
  destruct (core_answer_shape (old ++ lines) (shift_outcome (length old) oc))
    as [m2 ->].
  exists (core_success oc), m1, m2, (answer_logs lines oc).
  split; [done|]. by rewrite core_success_shift, answer_logs_shift.
Qed.

Lemma older_sessions_ignored_witness :
  ∃ success m1 m2 logs,
    parse_lines example_log = Ok (compile_result success m1 logs)
    ∧ parse_lines ([START_MARKER; OUTPUT_MARKER; "stale"; SECTION_MARKER]
                     ++ example_log)
      = Ok (compile_result success m2 logs).
Proof.
  apply (older_sessions_ignored
           [START_MARKER; OUTPUT_MARKER; "stale"; SECTION_MARKER] example_log).
  reflexivity.
Defined.

Lemma marker_at_app_l m lines tail j :
  (j < length lines)%nat -> marker_at m (lines ++ tail) j = marker_at m lines j.
Proof. intros H. unfold marker_at. by rewrite lookup_app_l. Qed.

Lemma marker_at_tail_free m lines tail j :
  none_in m tail 0 (length tail) -> (length lines ≤ j)%nat ->
  marker_at m (lines ++ tail) j = false.
Proof.
  intros H Hj. unfold marker_at. rewrite lookup_app_r by done.
  destruct (decide (j - length lines < length tail)%nat) as [Hlt|Hge].
  - apply (H (j - length lines)%nat). lia.
  - by rewrite lookup_ge_None_2 by lia.
Qed.

Lemma none_in_app m lines tail a :
  none_in m lines a (length lines) -> none_in m tail 0 (length tail) ->
  none_in m (lines ++ tail) a (length (lines ++ tail)).
Proof.
  intros Hl Ht j Hj. destruct (decide (j < length lines)%nat).
  - rewrite marker_at_app_l by done. apply Hl. lia.
  - apply marker_at_tail_free; [done|lia].
Qed.

Lemma last_in_app m lines tail a i :
  last_in m lines a (length lines) i -> none_in m tail 0 (length tail) ->
  last_in m (lines ++ tail) a (length (lines ++ tail)) i.
Proof.
  intros (Hi & Mi & Ni) Ht. rewrite length_app. split; [lia|].
  split; [by rewrite marker_at_app_l by lia|].
  rewrite <- length_app. by apply none_in_app.
Qed.

Lemma last_in_app_inner m lines tail a b i :
  (b ≤ length lines)%nat ->
  last_in m lines a b i -> last_in m (lines ++ tail) a b i.
Proof.
  intros Hb (Hi & Mi & Ni). split; [done|].
  split; [by rewrite marker_at_app_l by lia|].
  intros j Hj. rewrite marker_at_app_l by lia. by apply Ni.
Qed.

Lemma none_in_app_inner m lines tail a b :
  (b ≤ length lines)%nat ->
  none_in m lines a b -> none_in m (lines ++ tail) a b.
Proof. intros Hb N j Hj. rewrite marker_at_app_l by lia. by apply N. Qed.

Lemma trimmed_between_app lines tail o t :
  (t ≤ length lines)%nat ->
  trimmed_between (lines ++ tail) o t = trimmed_between lines o t.
Proof.
  intros Ht. unfold trimmed_between.
  destruct (decide (S o ≤ length lines)%nat) as [Ho|Ho].
  - rewrite drop_app_le by done. rewrite take_app_le; [done|].
    rewrite length_drop. lia.
  - by replace (t - S o)%nat with 0%nat by lia.
Qed.

Lemma classify_app lines tail oc :
  none_in START_MARKER tail 0 (length tail) ->
  none_in SECTION_MARKER tail 0 (length tail) ->
  classify lines oc -> classify (lines ++ tail) oc.
Proof.
  intros Hs Ht Hc.
  destruct Hc as [N|s S1 N|s t S1 T1 N|s t o S1 T1 O1]; constructor;
    try (by apply last_in_app); try (by apply none_in_app);
    assert (t < length lines)%nat by (destruct T1; lia);
    [apply none_in_app_inner|apply last_in_app_inner]; done || lia.
Qed.

Lemma core_answer_app lines tail oc :
  classify lines oc -> core_answer (lines ++ tail) oc = core_answer lines oc.
Proof.
  intros Hc. destruct Hc as [N|s S1 N|s t S1 T1 N|s t o S1 T1 O1]; try done.
  simpl. rewrite trimmed_between_app; [done|]. destruct T1; lia.
Qed.

(** X25.  What the log goes on to say after the session does not matter:
    lines added at the end that hold neither a start marker nor a section
    marker leave the core extractor's answer - flag, message and entries -
    exactly as it was. *)
Theorem later_lines_ignored lines tail :
  marker_free START_MARKER tail 0 (length tail) = true ->
  marker_free SECTION_MARKER tail 0 (length tail) = true ->
  parse_lines (lines ++ tail) = parse_lines lines.
Proof.
  intros Hs Ht.
  apply marker_free_spec in Hs; [|done]. apply marker_free_spec in Ht; [|done].
  destruct (parse_lines_classified lines) as (oc & Hc & -> & _).
  destruct (parse_lines_of_classify _ _ (classify_app _ tail _ Hs Ht Hc)) as [-> _].
  by rewrite core_answer_app.
Qed.

Lemma later_lines_ignored_witness :
  parse_lines (example_log ++ ["# Output"; "Refreshing native plugins"; ""])
  = parse_lines example_log.
Proof.
  apply (later_lines_ignored example_log
           ["# Output"; "Refreshing native plugins"; ""]); reflexivity.
Defined.

(** * Further properties of the compile orchestration *)


Lemma server_answer_well_formed lines oc : well_formed_result (server_answer lines oc).
Proof. destruct oc; apply compile_result_well_formed; done. Qed.

Section OrchestratorMore.

Variable get_unity_connection : M (option Bridge).
Variable time_sleep : Z -> World -> World.

Lemma trigger_unfold uc w :
  trigger_compilation_via_unity get_unity_connection time_sleep uc w =
    match connection_for get_unity_connection uc w with
    | (Ok (Some b), w1) =>
        match send_command b "project_files_refresher" ∅ w1 with
        | (Ok refresh_response, w2) =>
            match py_get refresh_response "success" (VBool true) with
            | Ok success =>
                let success :=
                  match refresh_response with
                  | VDict d =>
                      if bool_decide ("error" ∉ dom d) then VBool true else success
                  | _ => success
                  end in
                if truthy success then (Ok true, time_sleep 3 w2) else (Ok false, w2)
            | Raise _ => (Ok false, w2)
            end
        | (Raise _, w2) => (Ok false, w2)
        end
    | (Ok None, w1) => (Ok false, w1)
    | (Raise _, w1) => (Ok false, w1)
    end.
Proof.
  unfold trigger_compilation_via_unity, try_except, connection_for.
  rewrite M_bind_unfold.
  destruct (match uc with Some b => mret (Some b) | None => get_unity_connection end w)
    as [[[b|]|e] w1]; try done.
  rewrite M_bind_unfold.
  destruct (send_command b _ _ w1) as [[resp|e] w2]; [|done].
  rewrite M_bind_unfold. unfold lift.
  destruct (py_get resp "success" (VBool true)) as [success|e]; [|done].
  by match goal with |- context [truthy ?x] => destruct (truthy x) end.
Qed.

(** X4.  Without a connection - none was passed and
    [get_unity_connection] returns none or raises - the trigger returns
    [False] at once: no command is sent and nothing is waited for. *)
Theorem trigger_without_connection uc w w1 :
  (connection_for get_unity_connection uc w = (Ok None, w1)
   ∨ ∃ e, connection_for get_unity_connection uc w = (Raise e, w1)) ->
  trigger_compilation_via_unity get_unity_connection time_sleep uc w = (Ok false, w1).
Proof. intros [H|[e H]]; by rewrite trigger_unfold, H. Qed.

(** X5.  When the response dict does carry an "error" key, the trigger's
    answer is the truth value of its "success" entry, taken as [True] when
    the entry is missing; it sleeps exactly when it answers [True]. *)
Theorem trigger_with_error_key uc b d err w w1 w2 :
  connection_for get_unity_connection uc w = (Ok (Some b), w1) ->
  send_command b "project_files_refresher" ∅ w1 = (Ok (VDict d), w2) ->
  d !! "error" = Some err ->
  trigger_compilation_via_unity get_unity_connection time_sleep uc w =
    if truthy (default (VBool true) (d !! "success"))
    then (Ok true, time_sleep 3 w2) else (Ok false, w2).
Proof.
  intros Hc Hs He. rewrite trigger_unfold, Hc, Hs. simpl py_get.
  rewrite bool_decide_false; [done|].
  intros Hn. apply not_elem_of_dom in Hn. congruence.
Qed.

(** X6.  When sending the trigger command raises, or the response is not a
    dict, the trigger returns [False] without sleeping. *)
Theorem trigger_send_failure uc b w w1 w2 :
  connection_for get_unity_connection uc w = (Ok (Some b), w1) ->
  ((∃ e, send_command b "project_files_refresher" ∅ w1 = (Raise e, w2))
   ∨ ∃ response, send_command b "project_files_refresher" ∅ w1 = (Ok response, w2)
                 ∧ (∀ d, response ≠ VDict d)) ->
  trigger_compilation_via_unity get_unity_connection time_sleep uc w = (Ok false, w2).
Proof.
  intros Hc [[e Hs]|(response & Hs & Hd)]; rewrite trigger_unfold, Hc, Hs; [done|].
  destruct response; try done. by destruct (Hd d).
Qed.

(** X7.  Triggering is best effort: [compile_project] with the trigger is
    [compile_project] without it, run in the world the trigger attempt
    leaves behind, whatever that attempt returned. *)
Theorem compile_project_trigger_best_effort uc w :
  compile_project get_unity_connection time_sleep uc false w =
    compile_project get_unity_connection time_sleep uc true
      (trigger_compilation_via_unity get_unity_connection time_sleep uc w).2.
Proof.
  destruct (trigger_total get_unity_connection time_sleep uc w) as (r & w1 & Ht).
  unfold compile_project, try_except. simpl negb. cbv iota.
  rewrite (M_bind_unfold (_ ≫= _)), (M_bind_unfold (trigger_compilation_via_unity _ _ _)).
  rewrite Ht. simpl snd. by rewrite M_ret_bind.
Qed.

(** X8.  With the trigger skipped: when [Path.exists] raises [e] the result
    is the failure with message "Compilation error: " + str(e); when the log
    exists but reading it raises [e] the result is the failure with message
    "Error reading log: " + str(e).  Both have no entries. *)
Theorem compile_project_io_errors uc w e :
  (path_exists w (resolved_log_path w) = Raise e ->
   compile_project get_unity_connection time_sleep uc true w =
     (Ok (compile_result false ("Compilation error: " ++ exn_str e) []), w))
  ∧ (path_exists w (resolved_log_path w) = Ok true ->
     read_lines w (resolved_log_path w) = Raise e ->
     compile_project get_unity_connection time_sleep uc true w =
       (Ok (compile_result false ("Error reading log: " ++ exn_str e) []), w)).
Proof.
  split.
  - intros H. unfold compile_project, try_except. simpl negb. cbv iota.
    by rewrite M_ret_bind, M_bind_unfold, get_editor_log_path_spec, H.
  - intros He Hr. unfold compile_project, try_except. simpl negb. cbv iota.
    rewrite M_ret_bind, M_bind_unfold, get_editor_log_path_spec, He. simpl.
    rewrite M_bind_unfold.
    unfold parse_compilation_logs, try_except, open_readlines.
    rewrite M_bind_unfold, Hr. reflexivity.
Qed.

End OrchestratorMore.

Lemma trigger_without_connection_witness :
  trigger_compilation_via_unity refused_connection instant_sleep None bare_world
  = (Ok false, bare_world).
Proof.
  apply (trigger_without_connection refused_connection instant_sleep None
           bare_world bare_world).
  right. eexists. reflexivity.
Defined.

Lemma trigger_with_error_key_witness :
  trigger_compilation_via_unity refused_connection instant_sleep
    (Some (canned_bridge (VDict {[ "error" := VStr "refresh failed" ]}))) bare_world
  = (Ok true, bare_world).
Proof.
  etrans.
  - apply (trigger_with_error_key refused_connection instant_sleep
             (Some (canned_bridge (VDict {[ "error" := VStr "refresh failed" ]})))
             (canned_bridge (VDict {[ "error" := VStr "refresh failed" ]}))
             {[ "error" := VStr "refresh failed" ]} (VStr "refresh failed")
             bare_world bare_world bare_world); reflexivity.
  - vm_compute. reflexivity.
Defined.

Lemma trigger_send_failure_witness :
  trigger_compilation_via_unity refused_connection instant_sleep
    (Some (broken_bridge (Exn "TimeoutError" "timed out"))) bare_world
  = (Ok false, bare_world).
Proof.
  apply (trigger_send_failure refused_connection instant_sleep
           (Some (broken_bridge (Exn "TimeoutError" "timed out")))
           (broken_bridge (Exn "TimeoutError" "timed out"))
           bare_world bare_world bare_world); [reflexivity|].
  left. eexists. reflexivity.
Defined.

Lemma compile_project_io_errors_witness :
  compile_project refused_connection instant_sleep None true locked_world =
    (Ok (compile_result false "Compilation error: [Errno 13] Permission denied" []),
     locked_world)
  ∧ compile_project refused_connection instant_sleep None true unreadable_world =
      (Ok (compile_result false "Error reading log: [Errno 13] Permission denied" []),
       unreadable_world).
Proof.
  split.
  - apply (proj1 (compile_project_io_errors refused_connection instant_sleep None
                    locked_world (Exn "PermissionError" "[Errno 13] Permission denied"))).
    reflexivity.
  - apply (proj2 (compile_project_io_errors refused_connection instant_sleep None
                    unreadable_world
                    (Exn "PermissionError" "[Errno 13] Permission denied")));
      reflexivity.
Defined.

(** * Further properties of the [compile_project] tool of [server.py] *)

Section ServerTool.

Variable get_unity_connection : M (option Bridge).
Variable time_sleep : Z -> World -> World.

(** The tool's steps after the trigger stage, inside its [try]. *)
Lemma server_read_stage_well_formed w :
  ∃ r, (localappdata ← environ_get "LOCALAPPDATA";
        localappdata ←
          (if env_truthy localappdata then mret (default "" localappdata)
           else
             user ← environ_get "USER";
             mret ("/mnt/c/Users/" ++ default "Unknown" user ++ "/AppData/Local"));
        let editor_log_path :=
          path_div (path_div (path_div (MkPath localappdata []) "Unity") "Editor")
                   "Editor.log" in
        found ← exists_ editor_log_path;
        if negb found then
          mret (compile_result false "Unity Editor.log not found" [])
        else
          lines ← open_readlines editor_log_path;
          lift (server_parse_lines lines)) w = (r, w)
       ∧ ∀ v, r = Ok v -> well_formed_result v.
Proof.
  assert (Hparse : ∀ lines v, server_parse_lines lines = Ok v -> well_formed_result v).
  { intros lines v.
    destruct (parse_lines_classified lines) as (oc & _ & _ & ->).
    intros [= <-]. apply server_answer_well_formed. }
  assert (Hmiss : well_formed_result
                    (compile_result false "Unity Editor.log not found" []))
    by (by apply compile_result_well_formed).
  unfold mbind, M_bind, mret, M_ret, environ_get, ask, exists_, env_truthy,
    open_readlines, lift, path_div.
  destruct (environ w "LOCALAPPDATA") as [s|]; [destruct (String.eqb s "")|];
    simpl;
    (destruct (path_exists w _) as [[]|e]; simpl;
     [destruct (read_lines w _) as [lines|e]; simpl| |]);
    eexists; (split; [reflexivity|]); intros v Hv; try done;
    try (injection Hv as <-; exact Hmiss); by eapply Hparse.
Qed.

(** X9.  The [compile_project] tool always returns, and what it returns is
    a dict with exactly the keys "success", "message" and "compilation_logs"
    whose entries are empty whenever "success" is false. *)
Theorem server_compile_project_well_formed ctx w :
  ∃ v w', server_compile_project get_unity_connection time_sleep ctx w = (Ok v, w')
          ∧ well_formed_result v.
Proof.
  assert (Herr : ∀ e, well_formed_result
                        (compile_result false ("Error reading log: " ++ exn_str e) []))
    by (intros e; by apply compile_result_well_formed).
  unfold server_compile_project, try_except.
  rewrite M_bind_unfold.
  destruct (match ctx_bridge ctx with
            | Some b => mret (Some b)
            | None => get_unity_connection
            end w) as [[bridge|e] w1]; [|by eauto].
  rewrite M_bind_unfold.
  assert (∃ r w2,
            match bridge with
            | Some b =>
                refresh_response ← send_command b "project_files_refresher" ∅;
                success ← lift (py_get refresh_response "success" VNone);
                if negb (truthy success) then mret () else sleep time_sleep 3
            | None => mret ()
            end w1 = (r, w2)) as (r & w2 & ->) by (destruct (_ w1); eauto).
  destruct r as [[]|e]; [|by eauto]. cbv beta zeta.
  destruct (server_read_stage_well_formed w2) as (r & Hstage & Hr).
  cbv zeta in Hstage. rewrite Hstage.
  destruct r as [v|e]; [|by eauto].
  exists v, w2. split; [done|]. by apply Hr.
Qed.

(** X10.  Unlike the core, the tool gives up when the trigger stage fails:
    if no connection comes with the context and [get_unity_connection]
    raises [e], or if the connection's [send_command] raises [e], the result
    is the failure "Error reading log: " + str(e) and the log is never
    read. *)
Theorem server_compile_project_aborts ctx e w w1 :
  (ctx_bridge ctx = None -> get_unity_connection w = (Raise e, w1) ->
   server_compile_project get_unity_connection time_sleep ctx w =
     (Ok (compile_result false ("Error reading log: " ++ exn_str e) []), w1))
  ∧ (∀ b, ctx_bridge ctx = Some b ->
       send_command b "project_files_refresher" ∅ w = (Raise e, w1) ->
       server_compile_project get_unity_connection time_sleep ctx w =
         (Ok (compile_result false ("Error reading log: " ++ exn_str e) []), w1)).
Proof.
  split.
  - intros Hctx Hg. unfold server_compile_project, try_except.
    by rewrite M_bind_unfold, Hctx, Hg.
  - intros b Hctx Hs. unfold server_compile_project, try_except.
    rewrite Hctx, M_ret_bind, M_bind_unfold, M_bind_unfold, Hs. done.
Qed.

End ServerTool.

Lemma server_compile_project_aborts_witness :
  server_compile_project refused_connection instant_sleep (MkContext None)
    unreadable_world =
    (Ok (compile_result false "Error reading log: Could not connect to Unity" []),
     unreadable_world)
  ∧ server_compile_project refused_connection instant_sleep
      (MkContext (Some (broken_bridge (Exn "TimeoutError" "timed out"))))
      unreadable_world =
      (Ok (compile_result false "Error reading log: timed out" []), unreadable_world).
Proof.
  split.
  - apply (proj1 (server_compile_project_aborts refused_connection instant_sleep
                    (MkContext None)
                    (Exn "ConnectionError" "Could not connect to Unity")
                    unreadable_world unreadable_world)); reflexivity.
  - apply (proj2 (server_compile_project_aborts refused_connection instant_sleep
                    (MkContext (Some (broken_bridge (Exn "TimeoutError" "timed out"))))
                    (Exn "TimeoutError" "timed out")
                    unreadable_world unreadable_world)
             (broken_bridge (Exn "TimeoutError" "timed out"))); reflexivity.
Defined.

(** * Further properties of the dynamic tools and their registration *)

(** X11.  A connection that comes with the context is the one used:
    [get_unity_connection] is not consulted, so the tool behaves the same
    whatever that function would do. *)
Theorem tool_func_prefers_context gc1 gc2 cmd ctx kwargs b w :
  ctx_bridge ctx = Some b ->
  tool_func gc1 cmd ctx kwargs w = tool_func gc2 cmd ctx kwargs w.
Proof.
  intros H. unfold tool_func, try_except, tool_body.
  destruct (kwargs !! "ctx"); [done|]. by rewrite H, !M_ret_bind.
Qed.

Lemma tool_func_prefers_context_witness :
  tool_func refused_connection "get-scene-info"
    (MkContext (Some (canned_bridge (VDict {[ "success" := VBool true ]})))) ∅
    bare_world
  = tool_func absent_connection "get-scene-info"
      (MkContext (Some (canned_bridge (VDict {[ "success" := VBool true ]})))) ∅
      bare_world.
Proof.
  apply (tool_func_prefers_context refused_connection absent_connection
           "get-scene-info"
           (MkContext (Some (canned_bridge (VDict {[ "success" := VBool true ]}))))
           ∅ (canned_bridge (VDict {[ "success" := VBool true ]})) bare_world).
  reflexivity.
Defined.

Lemma read_command_type_dict d :
  read_command_type (VDict d) = Ok (either_key d "CommandType" "commandType" VNone).
Proof.
  unfold read_command_type, either_key. simpl py_get. rewrite exc_bind_Ok.
  by destruct (truthy _).
Qed.

Lemma read_command_type_not_dict v :
  is_dict v = false -> ∃ e, read_command_type v = Raise e.
Proof. destruct v; try done; intros _; eexists; reflexivity. Qed.

Section RegistrationMore.

Context {Registry : Type}.
Variable add_tool : Registry -> Registration -> exc () * Registry.

Lemma after_calls_nil (mcp : @Mcp Registry) : after_calls add_tool mcp [] = mcp.
Proof. destruct mcp. unfold after_calls. simpl. by rewrite app_nil_r. Qed.

Lemma after_calls_app (mcp : @Mcp Registry) calls1 calls2 :
  after_calls add_tool (after_calls add_tool mcp calls1) calls2
  = after_calls add_tool mcp (calls1 ++ calls2).
Proof. unfold after_calls. simpl. by rewrite foldl_app, app_assoc. Qed.

Lemma register_loop_step tool_meta rest command_type mcp :
  is_dict tool_meta = true ->
  register_loop add_tool (tool_meta :: rest) command_type mcp =
    register_loop add_tool rest
      (Some (default VNone (match read_command_type tool_meta with
                            | Ok ct => Some ct
                            | Raise _ => None
                            end)))
      (after_calls add_tool mcp (option_list (try_register tool_meta))).
Proof.
  destruct tool_meta as [| | | | |d]; try done. intros _.
  simpl register_loop. unfold try_register.
  rewrite read_command_type_dict.
  destruct (register_one _ _) as [[r|]|e]; simpl; by rewrite ?after_calls_nil.
Qed.

Lemma register_loop_bound_any metas ct1 ct2 mcp :
  register_loop add_tool metas (Some ct1) mcp
  = register_loop add_tool metas (Some ct2) mcp.
Proof.
  revert ct1 ct2 mcp. induction metas as [|m rest IH]; intros ct1 ct2 mcp; [done|].
  simpl. destruct (read_command_type m) as [ct|e]; [done|]. apply IH.
Qed.

Lemma register_loop_bound_ok metas ct mcp :
  (register_loop add_tool metas (Some ct) mcp).1 = Ok ().
Proof.
  revert ct mcp. induction metas as [|m rest IH]; intros ct mcp; [done|].
  simpl. destruct (read_command_type m) as [ct'|e]; [|apply IH].
  destruct (register_one m ct') as [[r|]|e]; apply IH.
Qed.

(** On a batch of dicts the loop never raises and makes, in order, the call
    each descriptor leads to on its own. *)
Lemma register_loop_dicts metas ct mcp :
  forallb is_dict metas = true ->
  register_loop add_tool metas ct mcp
  = (Ok (), after_calls add_tool mcp (omap try_register metas)).
Proof.
  revert ct mcp. induction metas as [|m rest IH]; intros ct mcp H.
  - by rewrite after_calls_nil.
  - simpl in H. apply andb_true_iff in H as [Hm Hrest].
    rewrite register_loop_step, IH by done.
    rewrite after_calls_app. do 2 f_equal. simpl.
    by destruct (try_register m).
Qed.

Lemma register_raises_head tool_meta rest mcp :
  is_dict tool_meta = false ->
  register_dynamic_unity_tools add_tool mcp (tool_meta :: rest)
  = (Raise (UnboundLocal "command_type"), mcp).
Proof.
  intros E. destruct (read_command_type_not_dict tool_meta E) as [e He].
  unfold register_dynamic_unity_tools. simpl. by rewrite He.
Qed.

(** X12.  The batch as a whole fails in one case only: when its first
    descriptor is not a dict.  Then the call raises [UnboundLocalError] from
    its own [except] clause and nothing is registered.  With a dict in front
    (or an empty batch) the call returns normally, whatever follows. *)
Theorem register_raises_iff_head_not_dict mcp tools_metadata :
  match tools_metadata with
  | tool_meta :: _ =>
      if is_dict tool_meta
      then (register_dynamic_unity_tools add_tool mcp tools_metadata).1 = Ok ()
      else register_dynamic_unity_tools add_tool mcp tools_metadata
           = (Raise (UnboundLocal "command_type"), mcp)
  | [] => register_dynamic_unity_tools add_tool mcp tools_metadata = (Ok (), mcp)
  end.
Proof.
  destruct tools_metadata as [|m rest]; [done|].
  unfold register_dynamic_unity_tools.
  destruct (is_dict m) eqn:E.
  - rewrite register_loop_step by done. apply register_loop_bound_ok.
  - destruct (read_command_type_not_dict m E) as [e He]. simpl. by rewrite He.
Qed.

Lemma register_loop_extends metas ct mcp :
  ∃ added,
    add_tool_calls (register_loop add_tool metas ct mcp).2
    = (add_tool_calls mcp ++ added)%list
    ∧ (length added ≤ length metas)%nat.
Proof.
  revert ct mcp. induction metas as [|m rest IH]; intros ct mcp.
  - exists []. by rewrite app_nil_r.
  - simpl. destruct (read_command_type m) as [ct'|e].
    + destruct (register_one m ct') as [[r|]|e'].
      * destruct (IH (Some ct')
                    (MkMcp (add_tool (mcp_registry mcp) r).2
                           (add_tool_calls mcp ++ [r])%list))
          as (added & -> & Hlen).
        exists (r :: added). simpl. rewrite <- app_assoc. split; [done|]. simpl. lia.
      * destruct (IH (Some ct') mcp) as (added & -> & Hlen).
        exists added. split; [done|]. simpl. lia.
      * destruct (IH (Some ct') mcp) as (added & -> & Hlen).
        exists added. split; [done|]. simpl. lia.
    + destruct ct.
      * destruct (IH (Some v) mcp) as (added & -> & Hlen).
        exists added. split; [done|]. simpl. lia.
      * exists []. rewrite app_nil_r. split; [done|]. simpl. lia.
Qed.

(** X13.  Registration only ever appends: the [add_tool] calls made before
    stay in place, in front, and at most one call is added per
    descriptor. *)
Theorem register_only_appends mcp tools_metadata :
  ∃ added,
    add_tool_calls (register_dynamic_unity_tools add_tool mcp tools_metadata).2
    = (add_tool_calls mcp ++ added)%list
    ∧ (length added ≤ length tools_metadata)%nat.
Proof. apply register_loop_extends. Qed.

(** X14.  On descriptors that are dicts, registering a batch in one call is
    registering its two halves one after the other. *)
Theorem register_batches_compose mcp batch1 batch2 :
  forallb is_dict batch1 = true ->
  forallb is_dict batch2 = true ->
  register_dynamic_unity_tools add_tool mcp (batch1 ++ batch2) =
    register_dynamic_unity_tools add_tool
      (register_dynamic_unity_tools add_tool mcp batch1).2 batch2.
Proof.
  intros H1 H2. unfold register_dynamic_unity_tools.
  rewrite !register_loop_dicts; try done.
  - simpl. by rewrite omap_app, after_calls_app.
  - rewrite forallb_app. by rewrite H1, H2.
Qed.

End RegistrationMore.

Lemma register_batches_compose_witness :
  register_dynamic_unity_tools keep_first (MkMcp [] [])
    ([scene_info_meta] ++ [VDict ∅; move_object_meta]) =
    register_dynamic_unity_tools keep_first
      (register_dynamic_unity_tools keep_first (MkMcp [] []) [scene_info_meta]).2
      [VDict ∅; move_object_meta].
Proof.
  apply (register_batches_compose keep_first (MkMcp [] []) [scene_info_meta]
           [VDict ∅; move_object_meta]);
    reflexivity.
Defined.

Lemma get_either {A} d k1 k2 dflt (f : val -> exc A) :
  (a ← py_get (VDict d) k1 VNone;
   x ← (if truthy a then Ok a else py_get (VDict d) k2 dflt);
   f x) = f (either_key d k1 k2 dflt).
Proof.
  unfold either_key. simpl py_get. rewrite exc_bind_Ok.
  by destruct (truthy _).
Qed.

Lemma scan_param_ok param :
  param_ok param = true -> scan_param param = Ok (param_name param).
Proof.
  destruct param as [| | | | |d]; try done. unfold param_ok, scan_param, param_name.
  intros H. apply andb_true_iff in H as [Ht Hn].
  rewrite !get_either. simpl py_get. rewrite exc_bind_Ok.
  destruct (either_key d "Type" "type" (VStr "str")); try done.
  rewrite exc_bind_Ok.
  by destruct (either_key d "Name" "name" (VStr "unknown")).
Qed.

Lemma scan_params_ok params :
  forallb param_ok params = true -> scan_params params = Ok (param_name <$> params).
Proof.
  induction params as [|p rest IH]; [done|]. simpl forallb.
  intros H. apply andb_true_iff in H as [Hp Hrest].
  simpl scan_params. by rewrite scan_param_ok, exc_bind_Ok, IH.
Qed.

Lemma register_one_dict d command_type :
  register_one (VDict d) command_type =
    if negb (truthy command_type) then Ok None
    else
      tool_func ← make_tool_func command_type
                    (either_key d "Description" "description" (VStr ""))
                    (either_key d "Parameters" "parameters" (VList []));
      match command_type with
      | VStr c =>
          Ok (Some (MkRegistration tool_func (py_replace "-" "_" c)
                      (either_key d "Description" "description" (VStr ""))))
      | v => Raise (AttributeError v "replace")
      end.
Proof.
  unfold register_one.
  rewrite (get_either d "Description" "description").
  by rewrite (get_either d "Parameters" "parameters").
Qed.

Lemma well_formed_descriptor_registers tool_meta r :
  well_formed_descriptor tool_meta = Some r ->
  is_dict tool_meta = true ∧ try_register tool_meta = Some r.
Proof.
  unfold well_formed_descriptor, descriptor_command, try_register.
  destruct tool_meta as [| | | | |d]; try done.
  rewrite read_command_type_dict.
  destruct (either_key d "CommandType" "commandType" VNone) as [| | |c| |] eqn:Ec;
    try done.
  destruct (String.eqb c "") eqn:Ee; [done|].
  destruct (either_key d "Parameters" "parameters" (VList [])) as [| | | |ps|] eqn:Ep;
    try done.
  destruct (forallb param_ok ps) eqn:Eps; [|done].
  intros [= <-]. split; [done|].
  rewrite register_one_dict, Ep. simpl truthy. rewrite Ee. simpl negb. cbv iota.
  unfold make_tool_func. simpl py_iter. rewrite exc_bind_Ok.
  rewrite scan_params_ok by done. rewrite !exc_bind_Ok.
  by rewrite py_replace_dash.
Qed.

Lemma well_formed_batch metas regs :
  mapM well_formed_descriptor metas = Some regs ->
  forallb is_dict metas = true ∧ omap try_register metas = regs.
Proof.
  intros H. apply mapM_Some in H.
  induction H as [|m r metas regs Hm _ [IH1 IH2]]; [done|].
  destruct (well_formed_descriptor_registers _ _ Hm) as [Hd Ht].
  split; [simpl; by rewrite Hd, IH1|].
  simpl. rewrite Ht. f_equal. exact IH2.
Qed.

(** X15.  A batch of well-formed descriptors - dicts named by a non-empty
    string under "CommandType" or "commandType", with a list of acceptable
    parameter entries - leads to exactly one [add_tool] call per descriptor,
    in the order given, each with the descriptor's name with dashes turned
    into underscores; the call returns normally, and the registry is what
    [add_tool] makes of those calls. *)
Theorem well_formed_batch_registered {Registry : Type}
    (add_tool : Registry -> Registration -> exc () * Registry)
    mcp tools_metadata regs :
  mapM well_formed_descriptor tools_metadata = Some regs ->
  register_dynamic_unity_tools add_tool mcp tools_metadata
  = (Ok (), after_calls add_tool mcp regs).
Proof.
  intros H. destruct (well_formed_batch _ _ H) as [Hd <-].
  by apply register_loop_dicts.
Qed.

Lemma well_formed_batch_registered_witness :
  register_dynamic_unity_tools keep_first (MkMcp [] [])
    [scene_info_meta; move_object_meta] =
    (Ok (), after_calls keep_first (MkMcp [] [])
              [scene_info_registration; move_object_registration]).
Proof.
  apply (well_formed_batch_registered keep_first (MkMcp [] [])
           [scene_info_meta; move_object_meta]
           [scene_info_registration; move_object_registration]).
  vm_compute. reflexivity.
Defined.

Lemma try_register_named tool_meta r :
  try_register tool_meta = Some r ->
  ∃ c, descriptor_command tool_meta = Some c
       ∧ tool_cmd_type (reg_tool r) = c
       ∧ reg_name r = dashes_to_underscores c.
Proof.
  unfold try_register, descriptor_command.
  destruct tool_meta as [| | | | |d]; try done.
  rewrite read_command_type_dict.
  destruct (register_one _ _) as [[r'|]|] eqn:E; try done.
  intros [= ->].
  destruct (register_one_spec _ _ _ E) as (c & Hc & Hcmd & _ & Hname).
  rewrite Hc in *. exists c. split; [|done].
  destruct (String.eqb c "") eqn:Ee; [|done].
  rewrite register_one_dict in E. simpl truthy in E. by rewrite Ee in E.
Qed.

(** X16.  A descriptor without a usable command name - none under either
    key, an empty one, or one that is no string - is passed over, and the
    descriptors around it are registered as if it were not there. *)
Theorem unnamed_descriptor_skipped {Registry : Type}
    (add_tool : Registry -> Registration -> exc () * Registry)
    mcp before tool_meta after :
  forallb is_dict (before ++ tool_meta :: after) = true ->
  descriptor_command tool_meta = None ->
  register_dynamic_unity_tools add_tool mcp (before ++ tool_meta :: after) =
    register_dynamic_unity_tools add_tool mcp (before ++ after).
Proof.
  intros Hd Hc. unfold register_dynamic_unity_tools.
  assert (try_register tool_meta = None) as Hnone.
  { destruct (try_register tool_meta) as [r|] eqn:E; [|done].
    destruct (try_register_named _ _ E) as (c & Hc' & _). congruence. }
  rewrite forallb_app in Hd. apply andb_true_iff in Hd as [Hb Ha].
  simpl in Ha. apply andb_true_iff in Ha as [Hm Ha].
  rewrite !register_loop_dicts.
  - rewrite !omap_app. simpl. by rewrite Hnone.
  - rewrite forallb_app. by rewrite Hb, Ha.
  - rewrite forallb_app. simpl. by rewrite Hb, Hm, Ha.
Qed.

Lemma unnamed_descriptor_skipped_witness :
  register_dynamic_unity_tools keep_first (MkMcp [] [])
    ([scene_info_meta] ++ VDict (dict_of [("commandType", VInt 7)]) :: [move_object_meta])
  = register_dynamic_unity_tools keep_first (MkMcp [] [])
      ([scene_info_meta] ++ [move_object_meta]).
Proof.
  apply (unnamed_descriptor_skipped keep_first (MkMcp [] []) [scene_info_meta]
           (VDict (dict_of [("commandType", VInt 7)])) [move_object_meta]);
    reflexivity.
Defined.

Lemma dashes_length s :
  String.length (dashes_to_underscores s) = String.length s.
Proof. induction s as [|c r IH]; [done|]. simpl. by rewrite IH. Qed.

Lemma dashes_no_dash s : str_in "-" (dashes_to_underscores s) = false.
Proof.
  induction s as [|c r IH]; [done|].
  simpl dashes_to_underscores. rewrite str_in_unfold, IH.
  match goal with |- String.prefix "-" (String ?c' ?r') || false = false =>
    change (String.prefix "-" (String c' r'))
      with (if ascii_dec "-" c' then String.prefix "" r' else false);
    destruct (ascii_dec "-" c') as [Heq|]; [|done]
  end.
  destruct (Ascii.eqb c "-") eqn:E; [done|].
  apply Ascii.eqb_neq in E. congruence.
Qed.

Lemma register_loop_names {Registry : Type}
    (add_tool : Registry -> Registration -> exc () * Registry) metas :
  ∀ ct mcp r,
    r ∈ add_tool_calls (register_loop add_tool metas ct mcp).2 ->
    r ∈ add_tool_calls mcp
    ∨ reg_name r = dashes_to_underscores (tool_cmd_type (reg_tool r)).
Proof.
  induction metas as [|m rest IH]; intros ct mcp r Hr; [by left|].
  simpl in Hr. destruct (read_command_type m) as [ct'|e].
  - destruct (register_one m ct') as [[r'|]|e'] eqn:E.
    + apply IH in Hr as [Hr|Hr]; [|by right].
      simpl in Hr. apply elem_of_app in Hr as [Hr|Hr]; [by left|].
      apply list_elem_of_singleton in Hr as ->.
      destruct (register_one_spec _ _ _ E) as (c & _ & Hcmd & _ & Hname).
      right. by rewrite Hcmd.
    + by apply IH in Hr.
    + by apply IH in Hr.
  - destruct ct; [by apply IH in Hr|by left].
Qed.

(** X17.  No name passed to [add_tool] - so no name a tool is registered
    under - contains a dash, and the name is as long as the command name it
    came from. *)
Theorem registered_names_dash_free {Registry : Type}
    (add_tool : Registry -> Registration -> exc () * Registry)
    registry tools_metadata r :
  r ∈ add_tool_calls
        (register_dynamic_unity_tools add_tool (MkMcp registry []) tools_metadata).2 ->
  str_in "-" (reg_name r) = false
  ∧ String.length (reg_name r) = String.length (tool_cmd_type (reg_tool r)).
Proof.
  intros Hr. apply register_loop_names in Hr as [Hr | ->].
  - by apply elem_of_nil in Hr.
  - split; [apply dashes_no_dash|apply dashes_length].
Qed.

Lemma registered_names_dash_free_witness :
  str_in "-" (reg_name move_object_registration) = false
  ∧ String.length (reg_name move_object_registration)
    = String.length (tool_cmd_type (reg_tool move_object_registration)).
Proof.
  apply (registered_names_dash_free keep_first [] [scene_info_meta; move_object_meta]
           move_object_registration).
  vm_compute. right. left.
Defined.

(** * Further properties: discovery at start-up *)

Lemma truthy_dict_with_key (td : gmap string val) k v :
  td !! k = Some v -> truthy (VDict td) = true.
Proof.
  intros H. simpl. destruct (size td) eqn:E; [|done].
  apply map_size_empty_iff in E. subst td. by rewrite lookup_empty in H.
Qed.

Section DiscoveryMore.

Context {Registry : Type}.
Variable add_tool : Registry -> Registration -> exc () * Registry.
Variable new_mcp : Registry.
Variable get_unity_connection : M (option Bridge).

Lemma discover_tools_dict st d :
  discover_tools add_tool st (VDict d) =
    match announced_tools d with
    | Some tools =>
        let st' := MkServerState (server_mcp st) (_unity_connection st) tools in
        match py_len tools with
        | Raise e => (Raise e, st')
        | Ok _ => register_discovered add_tool st' tools
        end
    | None => (Ok (), st)
    end.
Proof.
  unfold discover_tools, announced_tools. simpl py_get. cbv beta iota.
  destruct (truthy (default VNone (d !! "success"))); [|done].
  destruct (default VNone (d !! "data")) as [| | | | |td] eqn:E;
    try (by destruct (truthy _)).
  destruct (td !! "tools") as [tools|] eqn:Et.
  - by rewrite (truthy_dict_with_key _ _ _ Et).
  - by destruct (truthy _).
Qed.

Lemma register_discovered_list st metas :
  register_discovered add_tool st (VList metas) =
    let (r, mcp) := register_dynamic_unity_tools add_tool (server_mcp st) metas in
    (r, MkServerState mcp (_unity_connection st) (VList metas)).
Proof. reflexivity. Qed.

(** X18.  When Unity answers [list_tools] with a list of well-formed
    descriptors, [create_mcp_server] makes exactly one [add_tool] call per
    descriptor on the fresh server, in order - the registry it returns is
    what [add_tool] makes of those calls - keeps the connection for later
    use and remembers the descriptors in [_discovered_tools]. *)
Theorem discovery_registers_tools st b d metas regs w w1 w2 :
  get_unity_connection w = (Ok (Some b), w1) ->
  send_command b "list_tools" ∅ w1 = (Ok (VDict d), w2) ->
  announced_tools d = Some (VList metas) ->
  mapM well_formed_descriptor metas = Some regs ->
  create_mcp_server add_tool new_mcp get_unity_connection st w =
    (MkServerState (after_calls add_tool (MkMcp new_mcp []) regs)
                   (Some b) (VList metas), w2).
Proof.
  intros Hg Hs Ha Hm. unfold create_mcp_server.
  rewrite Hg, Hs, discover_tools_dict, Ha. cbv zeta. simpl py_len. cbv iota.
  rewrite register_discovered_list. simpl server_mcp.
  destruct (well_formed_batch _ _ Hm) as [Hd <-].
  unfold register_dynamic_unity_tools. by rewrite register_loop_dicts.
Qed.

(** X19.  When the announced tools value cannot be measured with [len], or
    its first element is not a dict, discovery fails part-way: no tool is
    registered and the connection just opened is not kept, yet
    [_discovered_tools] already holds the unusable value. *)
Theorem discovery_failure_drops_connection st b d tools w w1 w2 :
  get_unity_connection w = (Ok (Some b), w1) ->
  send_command b "list_tools" ∅ w1 = (Ok (VDict d), w2) ->
  announced_tools d = Some tools ->
  ((∃ e, py_len tools = Raise e)
   ∨ ∃ tool_meta rest, py_iter tools = Ok (tool_meta :: rest)
                       ∧ is_dict tool_meta = false) ->
  create_mcp_server add_tool new_mcp get_unity_connection st w =
    (MkServerState (MkMcp new_mcp []) (_unity_connection st) tools, w2).
Proof.
  intros Hg Hs Ha Hbad. unfold create_mcp_server.
  rewrite Hg, Hs, discover_tools_dict, Ha. cbv zeta.
  destruct Hbad as [[e He]|(m & rest & Hi & Hm)].
  - by rewrite He.
  - assert (∃ n, py_len tools = Ok n) as [n Hn].
    { destruct tools; try done; eexists; reflexivity. }
    rewrite Hn. unfold register_discovered. rewrite Hn. cbv zeta. rewrite Hi.
    simpl server_mcp.
    by rewrite (register_raises_head add_tool m rest (MkMcp new_mcp []) Hm).
Qed.

(** X20.  When the response announces no tools - "success" is falsy, "data"
    is no dict, or it has no "tools" key - nothing is registered and
    [_discovered_tools] is left alone, but the connection is kept. *)
Theorem discovery_without_tools st b d w w1 w2 :
  get_unity_connection w = (Ok (Some b), w1) ->
  send_command b "list_tools" ∅ w1 = (Ok (VDict d), w2) ->
  announced_tools d = None ->
  create_mcp_server add_tool new_mcp get_unity_connection st w =
    (MkServerState (MkMcp new_mcp []) (Some b) (_discovered_tools st), w2).
Proof.
  intros Hg Hs Ha. unfold create_mcp_server.
  by rewrite Hg, Hs, discover_tools_dict, Ha.
Qed.

End DiscoveryMore.

Lemma discovery_registers_tools_witness :
  create_mcp_server keep_first []
    (unity_at (canned_bridge
                 (list_tools_response (VList [scene_info_meta; move_object_meta]))))
    (initial_state []) bare_world =
    (MkServerState
       (MkMcp ["get_scene_info"; "move_object"]
              [scene_info_registration; move_object_registration])
       (Some (canned_bridge
                (list_tools_response (VList [scene_info_meta; move_object_meta]))))
       (VList [scene_info_meta; move_object_meta]), bare_world).
Proof.
  etrans.
  - eapply (discovery_registers_tools keep_first []
              (unity_at (canned_bridge
                 (list_tools_response (VList [scene_info_meta; move_object_meta]))))
              (initial_state []) _ _ [scene_info_meta; move_object_meta]
              [scene_info_registration; move_object_registration]
              bare_world bare_world bare_world).
    + reflexivity.
    + reflexivity.
    + vm_compute. reflexivity.
    + vm_compute. reflexivity.
  - vm_compute. reflexivity.
Defined.

Lemma discovery_failure_drops_connection_witness :
  create_mcp_server keep_first []
    (unity_at (canned_bridge (list_tools_response (VList [VStr "get-scene-info"]))))
    (initial_state []) bare_world =
    (MkServerState (MkMcp [] []) None (VList [VStr "get-scene-info"]), bare_world).
Proof.
  eapply (discovery_failure_drops_connection keep_first []
            (unity_at (canned_bridge
               (list_tools_response (VList [VStr "get-scene-info"]))))
            (initial_state []) _ _ (VList [VStr "get-scene-info"])
            bare_world bare_world bare_world).
  - reflexivity.
  - reflexivity.
  - vm_compute. reflexivity.
  - right. do 2 eexists. split; reflexivity.
Defined.

Lemma discovery_without_tools_witness :
  create_mcp_server keep_first []
    (unity_at (canned_bridge (VDict {[ "success" := VBool true ]})))
    (initial_state []) bare_world =
    (MkServerState (MkMcp [] [])
       (Some (canned_bridge (VDict {[ "success" := VBool true ]})))
       (VList []), bare_world).
Proof.
  eapply (discovery_without_tools keep_first []
            (unity_at (canned_bridge (VDict {[ "success" := VBool true ]})))
            (initial_state []) _ _ bare_world bare_world bare_world); reflexivity.
Defined.

(** * Further properties: the prompt *)

Section PromptMore.

Variable py_repr : val -> string.

Lemma tool_lines_dicts tools : ∀ acc,
  forallb lacks_camel_keys tools = true ->
  tool_lines py_repr tools acc =
    Ok (acc ++ replicate (length tools) "- `unknown`: Unknown tool")%list.
Proof.
  induction tools as [|tool rest IH]; intros acc H.
  - simpl. by rewrite app_nil_r.
  - simpl in H. apply andb_true_iff in H as [Ht Hrest].
    destruct tool as [| | | | |d]; try done. simpl in Ht.
    apply andb_true_iff in Ht as [Hc Hd].
    apply bool_decide_eq_true in Hc, Hd.
    simpl tool_lines. unfold tool_line. simpl py_get. rewrite Hc, Hd.
    rewrite IH by done.
    simpl. by rewrite <- app_assoc.
Qed.

Lemma tool_lines_not_dict before tool after : ∀ acc,
  forallb is_dict before = true -> is_dict tool = false ->
  tool_lines py_repr (before ++ tool :: after) acc = Raise (AttributeError tool "get").
Proof.
  induction before as [|t rest IH]; intros acc Hb Ht.
  - by destruct tool.
  - simpl in Hb. apply andb_true_iff in Hb as [Hd Hrest].
    destruct t as [| | | | |d]; try done.
    simpl. by apply IH.
Qed.

(** X21.  The prompt reads only the keys "commandType" and "description".
    Descriptors that spell their keys "CommandType" and "Description" -
    which registration accepts - are each listed as
    "- `unknown`: Unknown tool". *)
Theorem prompt_ignores_pascal_case_keys tool tools :
  forallb lacks_camel_keys (tool :: tools) = true ->
  asset_creation_strategy py_repr (VList (tool :: tools)) =
    Ok (prompt_around
          (str_join "\n"
             (replicate (S (length tools)) "- `unknown`: Unknown tool"))).
Proof.
  intros H. unfold asset_creation_strategy. simpl py_iter.
  rewrite exc_bind_Ok, tool_lines_dicts by done. rewrite exc_bind_Ok.
  reflexivity.
Qed.

(** X22.  The prompt has no handler of its own: the first discovered entry
    that is not a dict makes it raise [AttributeError]. *)
Theorem prompt_raises_on_non_dict before tool after :
  forallb is_dict before = true ->
  is_dict tool = false ->
  asset_creation_strategy py_repr (VList (before ++ tool :: after)) =
    Raise (AttributeError tool "get").
Proof.
  intros Hb Ht. unfold asset_creation_strategy. simpl py_iter.
  by rewrite exc_bind_Ok, tool_lines_not_dict.
Qed.

End PromptMore.

Lemma prompt_ignores_pascal_case_keys_witness :
  asset_creation_strategy no_repr (VList [move_object_meta]) =
    Ok (prompt_around "- `unknown`: Unknown tool").
Proof.
  apply (prompt_ignores_pascal_case_keys no_repr move_object_meta []).
  reflexivity.
Defined.

Lemma prompt_raises_on_non_dict_witness :
  asset_creation_strategy no_repr (VList [scene_info_meta; VStr "get-scene-info"]) =
    Raise (Exn "AttributeError" "'str' object has no attribute 'get'").
Proof.
  apply (prompt_raises_on_non_dict no_repr [scene_info_meta]
           (VStr "get-scene-info") []); reflexivity.
Defined.

(** * Further properties: the command line tool *)

Lemma core_answer_failure_empty lines oc :
  core_success oc = false -> answer_logs lines oc = [].
Proof. by destruct oc. Qed.

Section MainShape.

Variable get_unity_connection : M (option Bridge).
Variable time_sleep : Z -> World -> World.

Lemma parse_compilation_logs_shape p w :
  ∃ b message logs,
    parse_compilation_logs p w = (Ok (compile_result b message logs), w)
    ∧ (b = false -> logs = []).
Proof.
  unfold parse_compilation_logs, try_except, open_readlines.
  rewrite M_bind_unfold.
  destruct (read_lines w p) as [lines|e].
  - unfold lift. destruct (parse_lines_classified lines) as (oc & _ & -> & _).
    destruct (core_answer_shape lines oc) as [message ->].
    do 3 eexists. split; [done|]. apply core_answer_failure_empty.
  - do 3 eexists. split; [done|]. done.
Qed.

Lemma compile_project_shape uc skip_trigger w :
  ∃ b message logs w',
    compile_project get_unity_connection time_sleep uc skip_trigger w
    = (Ok (compile_result b message logs), w')
    ∧ (b = false -> logs = []).
Proof.
  unfold compile_project, try_except. rewrite M_bind_unfold.
  assert (∃ w1, (if negb skip_trigger
                 then trigger_compilation_via_unity get_unity_connection time_sleep uc
                        ≫= (fun _ => mret ())
                 else mret ()) w = (Ok (), w1)) as (w1 & ->).
  { destruct skip_trigger; simpl; [by eauto|].
    rewrite M_bind_unfold.
    destruct (trigger_total get_unity_connection time_sleep uc w) as (b & w1 & ->).
    by eauto. }
  rewrite M_bind_unfold, get_editor_log_path_spec.
  destruct (path_exists w1 (resolved_log_path w1)) as [[]|e]; simpl.
  - rewrite M_bind_unfold.
    destruct (parse_compilation_logs_shape (resolved_log_path w1) w1)
      as (b & message & logs & -> & Hlogs).
    do 4 eexists. split; [reflexivity|done].
  - do 4 eexists. split; [reflexivity|done].
  - do 4 eexists. split; [reflexivity|done].
Qed.

End MainShape.

Section MainMore.

Variable py_repr : val -> string.
Context {Console : Type}.
Variable py_print : Console -> string -> exc () * Console.
Variable json_dumps : val -> exc string.
Variable get_unity_connection : M (option Bridge).
Variable time_sleep : Z -> World -> World.









Lemma execution_failed_not_zero out e out' :
  execution_failed py_print out e ≠ (out', Ok 0).
Proof.
  unfold execution_failed, do_print.
  destruct (py_print _ _) as [[[]|e'] c]; intros [= ].
Qed.

(** X26.  Whatever [print] and [json.dumps] do, [main] exits with 0 only
    after a successful compile: a status 0 means [compile_project] returned
    a result whose "success" is [True]. *)
Theorem main_status_zero_sound args stdout w out w' :
  main py_repr py_print json_dumps get_unity_connection time_sleep args stdout w
  = ((out, Ok 0), w') ->
  ∃ message logs,
    compile_project get_unity_connection time_sleep None (no_trigger args) w
    = (Ok (compile_result true message logs), w').
Proof.
  destruct (compile_project_shape get_unity_connection time_sleep
              None (no_trigger args) w)
    as (b & message & logs & w1 & Hc & _).
  unfold main. cbv zeta. rewrite Hc.
  destruct (match output args with
            | Json => _
            | Text => _
            end) as [out1 [[]|e]].
  - change (py_subscript (compile_result b message logs) "success")
      with (Ok (VBool b)).
    cbv beta iota. simpl truthy. intros [= <- Hst <-].
    destruct b; [eauto|discriminate].
  - intros [= H <-]. by apply execution_failed_not_zero in H.
Qed.


End MainMore.



Lemma main_status_zero_sound_witness :
  ∃ message logs,
    compile_project refused_connection instant_sleep None true logged_world
    = (Ok (compile_result true message logs), logged_world).
Proof.
  apply (main_status_zero_sound no_repr closing_pipe no_json refused_connection
           instant_sleep (MkArgs true Text false) 9%nat logged_world
           (main no_repr closing_pipe no_json refused_connection instant_sleep
              (MkArgs true Text false) 9%nat logged_world).1.1).
  vm_compute. reflexivity.
Defined.


(** The command line tool on a missing log, in text mode. *)
Example main_log_missing :
  main no_repr print_all no_json refused_connection instant_sleep
    (MkArgs true Text false) () bare_world =
    ((MkStdout () ["[COMPILATION FAILED] Unity Editor.log not found"], Ok 1),
     bare_world).
Proof. reflexivity. Qed.

(** A successful compile whose report goes into a pipe that closes after
    the first line: the header cannot be printed, and neither can the error
    line of the handler, whose exception leaves [main]. *)
Example main_pipe_closes :
  main no_repr closing_pipe no_json refused_connection instant_sleep
    (MkArgs true Text false) 1%nat logged_world =
    ((MkStdout 0%nat ["Successfully read 2 compilation records (from 3 to 7)"],
      Raise (Exn "BrokenPipeError" "[Errno 32] Broken pipe")), logged_world).
Proof. vm_compute. reflexivity. Qed.
